(** * NERO voice assistant: orchestration layer

    A shallow embedding of the session state machine
    ([MaquinaEstadosNero]), the orchestrator ([NeroAssistant]), the
    stop-word listener of [STTFraco] and the TTS summary of
    [AgentHandler], with the properties of the design document checked
    against them.

    Conventions.
    - A Python [str] is a [string]; one character of the model stands for
      one code point below 256.
    - Every mutable attribute the orchestrator touches lives in one store,
      [World]; methods are computations in a state-and-exception monad [M].
    - The logger, the microphone, the recogniser, the transcription, agent
      and synthesis services are collaborators: each call is recorded in
      the store, and what the call answers is read from an environment
      ([TurnEnv], [Attempt]).
    - Only exceptions of class [Exception] are modelled; [KeyboardInterrupt]
      and task cancellation are outside the model. *)

From Stdlib Require Import String Ascii List ZArith Lia Bool Arith.
Import ListNotations.
Open Scope string_scope.

(** ** Python strings *)

Module PyStr.

(** Truthiness of a [str]: [not s] holds for the empty string only. *)
Definition is_empty (s : string) : bool :=
  match s with EmptyString => true | String _ _ => false end.

(** [s[:n]] for [0 <= n]. *)
Definition slice_to (s : string) (n : nat) : string := substring 0 n s.

(** [sub in s]. *)
Fixpoint contains (sub s : string) : bool :=
  prefix sub s ||
  match s with
  | EmptyString => false
  | String _ s' => contains sub s'
  end.

Fixpoint rfind_from (i : Z) (sub s : string) (last : Z) : Z :=
  let last' := if prefix sub s then i else last in
  match s with
  | EmptyString => last'
  | String _ s' => rfind_from (i + 1) sub s' last'
  end.

(** [s.rfind(sub)]: the highest index where [sub] starts, or [-1]. *)
Definition rfind (s sub : string) : Z := rfind_from 0 sub s (-1).

(** [c.upper()] on the ASCII letters. *)
Definition upper_ascii (c : ascii) : ascii :=
  let n := nat_of_ascii c in
  if ((97 <=? n) && (n <=? 122))%nat then ascii_of_nat (n - 32) else c.

Fixpoint upper (s : string) : string :=
  match s with
  | EmptyString => EmptyString
  | String c s' => String (upper_ascii c) (upper s')
  end.

(** [c.isspace()], the white space of [str.strip] and [str.split].  A text
    is a sequence of code points below 256; there the white space is the
    space, \t, \n, \v, \f, \r, the separators 0x1c-0x1f, the next-line
    character 0x85 and the no-break space 0xa0.  [upper] and [lower] change
    the ASCII letters only. *)
Definition is_space (c : ascii) : bool :=
  let n := nat_of_ascii c in
  ((n =? 32) || ((9 <=? n) && (n <=? 13)) || ((28 <=? n) && (n <=? 31))
   || (n =? 133) || (n =? 160))%nat.

Fixpoint lstrip (s : string) : string :=
  match s with
  | EmptyString => EmptyString
  | String c s' => if is_space c then lstrip s' else s
  end.

Fixpoint rstrip (s : string) : string :=
  match s with
  | EmptyString => EmptyString
  | String c s' =>
      match rstrip s' with
      | EmptyString => if is_space c then EmptyString else String c EmptyString
      | r => String c r
      end
  end.

Definition strip (s : string) : string := rstrip (lstrip s).

(** [c.lower()] on the ASCII letters. *)
Definition lower_ascii (c : ascii) : ascii :=
  let n := nat_of_ascii c in
  if ((65 <=? n) && (n <=? 90))%nat then ascii_of_nat (n + 32) else c.

Fixpoint lower (s : string) : string :=
  match s with
  | EmptyString => EmptyString
  | String c s' => String (lower_ascii c) (lower s')
  end.

(** [b"".join(chunks)]. *)
Fixpoint join (chunks : list string) : string :=
  match chunks with
  | [] => EmptyString
  | c :: rest => c ++ join rest
  end.

End PyStr.

(** ** The logger

    [NeroLogger] prints; the model keeps what was asked of it: the method
    called, the message template and the values interpolated into it. *)

Inductive LogMethod :=
| Info | Debug | Warning | Error | Listening | Recording | Transcript
| Agent | Complete | Done | StopWord.

Record LogEntry := mkLog {
  log_method : LogMethod;
  log_template : string;
  log_args : list string
}.

(** ** Collaborator calls issued by the orchestrator *)

Inductive Call :=
| CDetectarWakeWord (wake_words : list string)      (* stt_fraco.detectar_wake_word *)
| CAguardarPalavraParada (stop_words : list string) (* stt_fraco.aguardar_palavra_parada *)
| CVerificarPalavraParada                           (* stt_fraco.verificar_palavra_parada_detectada *)
| CSleep (ms : Z)                                   (* asyncio.sleep *)
| CMicrophone                                       (* sr.Microphone() *)
| CListen (timeout phrase_time_limit : Z)           (* Recognizer.listen, seconds *)
| CTranscrever (audio : string)                     (* stt_forte.transcrever_audio_file *)
| CProcessarPrompt (transcricao : string)           (* agent.processar_prompt *)
| CWaitFor (timeout_ms : Z)                         (* asyncio.wait_for(event.wait(), ...) *)
| CFalar (texto voz : string)                       (* tts.falar *)
| CClose.                                           (* stt_forte.close / tts.close / temp files *)

(** ** The store *)

Record World := mkWorld {
  estado_atual : string;        (* state_machine.estado_atual *)
  running : bool;               (* NeroAssistant.running *)
  recording_complete : bool;    (* the asyncio.Event: set / clear *)
  log : list LogEntry;          (* most recent first *)
  calls : list Call             (* most recent first *)
}.

Definition set_estado (e : string) (w : World) : World :=
  mkWorld e (running w) (recording_complete w) (log w) (calls w).
Definition set_running (b : bool) (w : World) : World :=
  mkWorld (estado_atual w) b (recording_complete w) (log w) (calls w).
Definition set_event (b : bool) (w : World) : World :=
  mkWorld (estado_atual w) (running w) b (log w) (calls w).
Definition push_log (e : LogEntry) (w : World) : World :=
  mkWorld (estado_atual w) (running w) (recording_complete w) (e :: log w) (calls w).
Definition push_call (c : Call) (w : World) : World :=
  mkWorld (estado_atual w) (running w) (recording_complete w) (log w) (c :: calls w).

(** ** The monad: state and exceptions *)

Inductive exn :=
| TimeoutError            (* asyncio.TimeoutError *)
| WaitTimeoutError        (* sr.WaitTimeoutError *)
| KeyError
| OtherException.         (* any other subclass of Exception *)

Inductive outcome (A : Type) :=
| Return (a : A)
| Raise (e : exn).
Arguments Return {A} a.
Arguments Raise {A} e.

Definition M (A : Type) : Type := World -> outcome A * World.

Definition ret {A} (a : A) : M A := fun w => (Return a, w).
Definition raise {A} (e : exn) : M A := fun w => (Raise e, w).
Definition bind {A B} (c : M A) (k : A -> M B) : M B :=
  fun w => match c w with
           | (Return a, w') => k a w'
           | (Raise e, w') => (Raise e, w')
           end.
(** [try: c  except ...: h e] *)
Definition try_except {A} (c : M A) (h : exn -> M A) : M A :=
  fun w => match c w with
           | (Return a, w') => (Return a, w')
           | (Raise e, w') => h e w'
           end.
(** [try: c  finally: f] *)
Definition try_finally {A} (c : M A) (f : M unit) : M A :=
  fun w => match c w with
           | (r, w') => match f w' with
                        | (Return _, w'') => (r, w'')
                        | (Raise e, w'') => (Raise e, w'')
                        end
           end.
Definition modify (f : World -> World) : M unit := fun w => (Return tt, f w).
Definition gets {A} (f : World -> A) : M A := fun w => (Return (f w), w).

Declare Scope m_scope.
Delimit Scope m_scope with m.
Notation "x <- c ;; k" := (bind c (fun x => k))
  (at level 61, c at next level, right associativity) : m_scope.
Notation "c ;; k" := (bind c (fun _ => k))
  (at level 61, right associativity) : m_scope.
Open Scope m_scope.

Definition logger (m : LogMethod) (template : string) (args : list string) : M unit :=
  modify (push_log (mkLog m template args)).
Definition call (c : Call) : M unit := modify (push_call c).

(** ** Session state machine *)

Module MaquinaEstadosNero.

Definition ESTADOS : list (string * string) :=
  [ ("DESCANSO", "Idle - Waiting for wake word");
    ("AGUARDANDO", "Waiting - Wake word detected, listening for prompt");
    ("GRAVANDO", "Recording - Capturing user prompt");
    ("PROCESSANDO", "Processing - Sending to Claude Agent");
    ("RESPONDENDO", "Responding - Playing TTS response") ].

(** [k in d] and [d[k]] for a dict kept as an association list. *)
Definition dict_mem (k : string) (d : list (string * string)) : bool :=
  existsb (fun kv => String.eqb k (fst kv)) d.
Fixpoint dict_get (k : string) (d : list (string * string)) : option string :=
  match d with
  | [] => None
  | (k', v) :: d' => if String.eqb k k' then Some v else dict_get k d'
  end.

Definition transition_template : string := "State transition: {} → {}".

Definition transitar (novo_estado : string) : M bool :=
  if negb (dict_mem novo_estado ESTADOS) then
    logger Error "Invalid state: {}" [novo_estado] ;;
    ret false
  else
    atual <- gets estado_atual ;;
    if String.eqb novo_estado atual then
      ret true
    else
      let estado_anterior := atual in
      modify (set_estado novo_estado) ;;
      logger Info transition_template [estado_anterior; novo_estado] ;;
      match dict_get novo_estado ESTADOS with
      | Some meaning => logger Debug "State meaning: {}" [meaning]
      | None => raise KeyError
      end ;;
      ret true.

(** The [estado] property. *)
Definition estado (w : World) : string := estado_atual w.

(** A run of [transitar] over a sequence of targets: the values returned,
    in order, and the final store.  A raise ends the run. *)
Fixpoint transitar_seq (targets : list string) (w : World)
  : list bool * World :=
  match targets with
  | [] => ([], w)
  | t :: ts =>
      match transitar t w with
      | (Return b, w') =>
          let (bs, w'') := transitar_seq ts w' in (b :: bs, w'')
      | (Raise _, w') => ([], w')
      end
  end.

(** The store after a transition that changed the state: the assignment and
    the two log lines. *)
Definition apos_transicao (novo_estado meaning : string) (w : World) : World :=
  push_log (mkLog Debug "State meaning: {}" [meaning])
    (push_log (mkLog Info transition_template [estado_atual w; novo_estado])
       (set_estado novo_estado w)).

(** The state changes a log records, as pairs (from, to): most recent
    first as the log is kept, then oldest first. *)
Definition as_transition (e : LogEntry) : option (string * string) :=
  match log_method e, log_args e with
  | Info, [de; para] =>
      if String.eqb (log_template e) transition_template then Some (de, para) else None
  | _, _ => None
  end.

Fixpoint transitions_rev (l : list LogEntry) : list (string * string) :=
  match l with
  | [] => []
  | e :: l' =>
      match as_transition e with
      | Some t => t :: transitions_rev l'
      | None => transitions_rev l'
      end
  end.

Definition transitions (l : list LogEntry) : list (string * string) :=
  rev (transitions_rev l).

End MaquinaEstadosNero.

(** ** Observations on the store *)

Definition method_eqb (a b : LogMethod) : bool :=
  match a, b with
  | Info, Info | Debug, Debug | Warning, Warning | Error, Error
  | Listening, Listening | Recording, Recording | Transcript, Transcript
  | Agent, Agent | Complete, Complete | Done, Done | StopWord, StopWord => true
  | _, _ => false
  end.

Fixpoint args_eqb (a b : list string) : bool :=
  match a, b with
  | [], [] => true
  | x :: a', y :: b' => String.eqb x y && args_eqb a' b'
  | _, _ => false
  end.

Definition log_eqb (a b : LogEntry) : bool :=
  method_eqb (log_method a) (log_method b)
  && String.eqb (log_template a) (log_template b)
  && args_eqb (log_args a) (log_args b).

(** How many times a line was logged. *)
Definition logged (e : LogEntry) (l : list LogEntry) : nat :=
  List.length (filter (log_eqb e) l).

Definition is_processar_prompt (c : Call) : bool :=
  match c with CProcessarPrompt _ => true | _ => false end.
Definition is_aguardar_palavra_parada (c : Call) : bool :=
  match c with CAguardarPalavraParada _ => true | _ => false end.
Definition is_listen (c : Call) : bool :=
  match c with CListen _ _ => true | _ => false end.

(** How many times the reasoning collaborator was dispatched to, the
    stop-word listener started, the microphone listened to. *)
Definition agent_calls (w : World) : nat :=
  List.length (filter is_processar_prompt (calls w)).
Definition listener_starts (w : World) : nat :=
  List.length (filter is_aguardar_palavra_parada (calls w)).
Definition listen_calls (w : World) : nat :=
  List.length (filter is_listen (calls w)).

(** ** What the collaborators answer during one iteration of the main loop *)

(** What [stt_fraco.detectar_wake_word] answers when it answers: the dict
    it returns, or a raise.  The orchestrator calls it with no timeout, and
    the call may never answer; a turn is scripted for a detector that did
    (see [STTFraco.detectar_wake_word] for the detector itself, which has
    the case of a loop that is still listening). *)
Inductive WakeOutcome :=
| WakeResult (detected : bool) (palavra : string)
| WakeRaises.

(** [Recognizer.listen] inside [with mic as source]. *)
Inductive ListenOutcome :=
| Heard (wav : string)      (* a phrase was captured *)
| ListenWaitTimeout         (* sr.WaitTimeoutError: no speech began in time *)
| ListenRaises.             (* the device or the library raised *)

(** The capture of the Recording phase, [with mic as source:
    audio = r.listen(source, ...)]: entering the [with] block raises (the
    audio stream cannot be opened) and [listen] is not called, or [listen]
    is called and answers. *)
Inductive CaptureOutcome :=
| EnterRaises
| Listened (answer : ListenOutcome).

(** [stt_forte.transcrever_audio_file]. *)
Inductive TranscribeOutcome :=
| Transcribed (texto : string)
| TranscribeRaises.

(** [agent.processar_prompt]: the ["sucesso"] entry of its dict, or a raise. *)
Inductive AgentOutcome :=
| AgentReturns (sucesso : bool)
| AgentRaises.

(** When the TTS callback finishes, in milliseconds counted from the start
    of the orchestrator's wait ([<= 0]: while the agent call was still being
    awaited), if it ever does. *)
Inductive TtsSignal :=
| SignalAt (ms : Z)
| SignalNever.

Record TurnEnv := mkEnv {
  wake : WakeOutcome;
  sigint_wake : bool;        (* SIGINT/SIGTERM handled during wake detection *)
  mic_ok : bool;             (* sr.Microphone() constructs *)
  capture : CaptureOutcome;
  transcribe : TranscribeOutcome;
  agent : AgentOutcome;
  sigint_dispatch : bool;    (* SIGINT/SIGTERM handled during the agent call *)
  resposta : string;         (* the summary handed to the TTS callback *)
  tts_signal : TtsSignal
}.

(** ** The orchestrator *)

Module NeroAssistant.
Import MaquinaEstadosNero.

Definition wake_words : list string := ["NERO OUVIR"; "NERO"].
Definition stop_words : list string := ["NERO ENVIAR"; "ENVIAR"; "ENVIAR NERO"].
Definition recording_timeout : Z := 600.
Definition response_timeout_ms : Z := 30000.   (* timeout=30.0 *)

(** [recording_complete.set()], [.clear()]. *)
Definition event_set : M unit := modify (set_event true).
Definition event_clear : M unit := modify (set_event false).

Definition _on_agent_response (texto : string) : M unit :=
  logger Debug "Agent response callback: '{}...'" [PyStr.slice_to texto 50] ;;
  call (CFalar texto "ana") ;;
  event_set.

Definition _signal_handler : M unit :=
  logger Info "Shutdown signal received" [] ;;
  modify (set_running false).

Definition deliver_signal (arrives : bool) : M unit :=
  if arrives then _signal_handler else ret tt.

(** [await asyncio.wait_for(self.recording_complete.wait(), timeout)]:
    [Event.wait] answers at once when the flag is set; otherwise the wait
    ends when the callback sets it, or with [TimeoutError] at the deadline. *)
Definition wait_for_recording_complete (env : TurnEnv) (timeout_ms : Z) : M bool :=
  call (CWaitFor timeout_ms) ;;
  flag <- gets recording_complete ;;
  if flag then ret true
  else
    match tts_signal env with
    | SignalAt t =>
        if (t <? timeout_ms)%Z then
          _on_agent_response (resposta env) ;; ret true
        else raise TimeoutError
    | SignalNever => raise TimeoutError
    end.

Definition estado_descanso (env : TurnEnv) : M bool :=
  transitar "DESCANSO" ;;
  logger Listening "Say 'NERO OUVIR' to activate..." [] ;;
  try_except
    (call (CDetectarWakeWord wake_words) ;;
     deliver_signal (sigint_wake env) ;;
     match wake env with
     | WakeRaises => raise OtherException
     | WakeResult detected palavra =>
         if detected then
           logger Complete "Wake word detected: {}" [palavra] ;;
           ret true
         else
           r <- gets running ;;
           if negb r then ret false else ret true
     end)
    (fun _ =>
       logger Error "Error in DESCANSO state" [] ;;
       call (CSleep 2000) ;;
       ret true).

Definition estado_aguardando : M bool :=
  transitar "AGUARDANDO" ;;
  logger Recording "Starting recording session..." [] ;;
  logger Info "Speak your prompt. Say 'NERO ENVIAR' when done." [] ;;
  call (CSleep 500) ;;
  ret true.

Definition estado_gravando (env : TurnEnv) : M string :=
  transitar "GRAVANDO" ;;
  logger Recording "Listening for your prompt..." [] ;;
  call CMicrophone ;;
  (if mic_ok env then ret tt else raise OtherException) ;;
  try_except
    (audio_data <- match capture env with
                   | EnterRaises => raise OtherException
                   | Listened answer =>
                       logger Info "Recording... (max {}s)" ["600"] ;;
                       call (CListen recording_timeout 60) ;;
                       match answer with
                       | Heard wav => ret wav
                       | ListenWaitTimeout => raise WaitTimeoutError
                       | ListenRaises => raise OtherException
                       end
                   end ;;
     call (CTranscrever audio_data) ;;
     transcricao <- match transcribe env with
                    | Transcribed t => ret t
                    | TranscribeRaises => raise OtherException
                    end ;;
     if negb (PyStr.is_empty transcricao) then
       logger Transcript "'{}'" [transcricao] ;;
       ret transcricao
     else
       logger Warning "Transcription failed or empty" [] ;;
       ret "")
    (fun e =>
       match e with
       | WaitTimeoutError =>
           logger Warning "No speech detected (timeout)" [] ;;
           ret ""
       | _ =>
           logger Error "Recording failed" [] ;;
           ret ""
       end).

Definition estado_processando (env : TurnEnv) (transcricao : string) : M bool :=
  transitar "PROCESSANDO" ;;
  logger Agent "Sending to Claude Agent SDK..." [] ;;
  if PyStr.is_empty transcricao then
    logger Warning "Empty transcription, skipping processing" [] ;;
    ret false
  else
    try_except
      (call (CProcessarPrompt transcricao) ;;
       deliver_signal (sigint_dispatch env) ;;
       (* the callback may finish while the agent call is awaited *)
       match tts_signal env with
       | SignalAt t => if (t <=? 0)%Z then _on_agent_response (resposta env) else ret tt
       | SignalNever => ret tt
       end ;;
       sucesso <- match agent env with
                  | AgentReturns b => ret b
                  | AgentRaises => raise OtherException
                  end ;;
       if sucesso then
         logger Complete "Agent processing completed" [] ;;
         logger Info "Waiting for audio response..." [] ;;
         wait_for_recording_complete env response_timeout_ms ;;
         ret true
       else
         logger Error "Agent processing failed" [] ;;
         ret false)
      (fun e =>
         match e with
         | TimeoutError =>
             logger Warning "TTS response timeout" [] ;;
             ret false
         | _ =>
             logger Error "Processing failed" [] ;;
             ret false
         end).

Definition estado_respondendo : M unit :=
  transitar "RESPONDENDO" ;;
  logger Complete "Response complete" [] ;;
  call (CSleep 1000) ;;
  transitar "DESCANSO" ;;
  logger Done "Ready for next command" [].

(** How one pass through the body of [while self.running] ends. *)
Inductive LoopCtl := Continue | Break.

Definition run_body (env : TurnEnv) : M LoopCtl :=
  ok <- estado_descanso env ;;
  if negb ok then ret Break
  else
    ok <- estado_aguardando ;;
    if negb ok then ret Continue
    else
      transcricao <- estado_gravando env ;;
      if PyStr.is_empty transcricao then
        logger Warning "No transcription, returning to idle" [] ;;
        transitar "DESCANSO" ;;
        ret Continue
      else
        event_clear ;;
        ok <- estado_processando env transcricao ;;
        if negb ok then
          logger Warning "Processing failed, returning to idle" [] ;;
          transitar "DESCANSO" ;;
          ret Continue
        else
          estado_respondendo ;;
          ret Continue.

(** How the loop was left: by [running] turning false or a [break], or
    because the scripted environments ran out while it was still looping. *)
Inductive LoopEnd := Stopped | OutOfScript.

Fixpoint run_loop (envs : list TurnEnv) : M LoopEnd :=
  fun w =>
    if running w then
      match envs with
      | [] => (Return OutOfScript, w)
      | env :: rest =>
          match run_body env w with
          | (Return Continue, w') => run_loop rest w'
          | (Return Break, w') => (Return Stopped, w')
          | (Raise e, w') => (Raise e, w')
          end
      end
    else (Return Stopped, w).

(** [logger.print_banner]: the two lines it logs after the banner. *)
Definition print_banner : M unit :=
  logger Info "Initializing NERO voice assistant..." [] ;;
  logger Info "Press Ctrl+C at any time to exit gracefully" [].

(** [cleanup]: [close_ok] tells whether closing the two HTTP clients went
    through; [limpar_arquivos_temporarios] swallows its own errors. *)
Definition cleanup (close_ok : bool) : M unit :=
  logger Info "Shutting down NERO..." [] ;;
  call CClose ;;
  (if close_ok then ret tt else raise OtherException) ;;
  logger Complete "NERO shutdown complete" [].

(** What [run] logs before it enters the loop. *)
Definition startup : M unit :=
  print_banner ;;
  logger Info "NERO is ready! Say 'NERO OUVIR' to begin." [] ;;
  logger Info "Press Ctrl+C to exit" [].

Definition run (envs : list TurnEnv) (close_ok : bool) : M unit :=
  startup ;;
  try_finally
    (try_except
       (run_loop envs ;; ret tt)
       (fun _ => logger Error "Fatal error in main loop" []))
    (cleanup close_ok).

(** The first three phases of [run_body]: [Some transcricao] when the
    Recording phase was reached and handed its transcript over, [None] when
    the iteration ended before. *)
Definition run_head (env : TurnEnv) : M (option string) :=
  ok <- estado_descanso env ;;
  if negb ok then ret None
  else
    ok <- estado_aguardando ;;
    if negb ok then ret None
    else
      transcricao <- estado_gravando env ;;
      ret (Some transcricao).

Definition turn_transcript (env : TurnEnv) (w : World) : option string :=
  match run_head env w with
  | (Return r, _) => r
  | (Raise _, _) => None
  end.

(** The rest of [run_body] once [estado_gravando] has returned. *)
Definition after_gravando (env : TurnEnv) (transcricao : string) : M LoopCtl :=
  if PyStr.is_empty transcricao then
    logger Warning "No transcription, returning to idle" [] ;;
    transitar "DESCANSO" ;;
    ret Continue
  else
    event_clear ;;
    ok <- estado_processando env transcricao ;;
    if negb ok then
      logger Warning "Processing failed, returning to idle" [] ;;
      transitar "DESCANSO" ;;
      ret Continue
    else
      estado_respondendo ;;
      ret Continue.

(** The agent reported success and the callback set the flag before the
    response-wait deadline. *)
Definition response_in_time (env : TurnEnv) : bool :=
  match agent env, tts_signal env with
  | AgentReturns true, SignalAt t => (t <? response_timeout_ms)%Z
  | _, _ => false
  end.

(** The lines that report how a dispatch failed. *)
Definition line_timeout : LogEntry := mkLog Warning "TTS response timeout" [].
Definition line_agent_failed : LogEntry := mkLog Error "Agent processing failed" [].
Definition line_exception : LogEntry := mkLog Error "Processing failed" [].
Definition line_turn_failed : LogEntry :=
  mkLog Warning "Processing failed, returning to idle" [].

(** The four dispatch lines are logged as often in [l'] as in [l]. *)
Definition same_dispatch_lines (l l' : list LogEntry) : Prop :=
  logged line_timeout l' = logged line_timeout l
  /\ logged line_agent_failed l' = logged line_agent_failed l
  /\ logged line_exception l' = logged line_exception l
  /\ logged line_turn_failed l' = logged line_turn_failed l.

(** The states a log shows the machine entering, oldest first. *)
Definition states_entered (l : list LogEntry) : list string :=
  map snd (transitions l).

(** Two scripted iterations from a fresh assistant: the agent answers and
    the response is spoken in time; the agent reports failure. *)
Definition fresh : World := mkWorld "DESCANSO" true false [] [].

Definition env_answered : TurnEnv :=
  mkEnv (WakeResult true "NERO OUVIR") false true (Listened (Heard "RIFF"))
        (Transcribed "que horas sao") (AgentReturns true) false
        "Sao dez horas." (SignalAt 1200).

Definition env_agent_fails : TurnEnv :=
  mkEnv (WakeResult true "NERO OUVIR") false true (Listened (Heard "RIFF"))
        (Transcribed "que horas sao") (AgentReturns false) false
        "" SignalNever.


Definition env_empty_transcript : TurnEnv :=
  mkEnv (WakeResult true "NERO OUVIR") false true (Listened (Heard "RIFF"))
        (Transcribed "") (AgentReturns true) false
        "Sao dez horas." (SignalAt 1200).

(** The store [NeroAssistant.__init__] leaves: the machine in DESCANSO,
    [running] true, the completion flag clear, and the debug lines of the
    constructors, the registration of the TTS callback last but one. *)
Definition novo_assistente : World :=
  mkWorld "DESCANSO" true false
    [ mkLog Debug "NERO Assistant initialized" [];
      mkLog Debug "TTS callback registered" [];
      mkLog Debug "Agent Handler initialized" [];
      mkLog Debug "TTS initialized with Cartesia" [];
      mkLog Debug "STT Forte initialized with Deepgram" [];
      mkLog Debug "STT Fraco initialized" [] ]
    [].

(** [not key or key.startswith("your_")]. *)
Definition key_invalid (key : string) : bool :=
  PyStr.is_empty key || prefix "your_" key.

(** [main]: the exit code, what was printed, and the assistant's store when
    one was built.  [ctor_ok] tells whether [NeroAssistant(...)] was built
    without raising. *)
Definition main (deepgram_api_key cartesia_api_key : string) (ctor_ok : bool)
  (envs : list TurnEnv) (close_ok : bool) : Z * list string * option World :=
  if key_invalid deepgram_api_key then
    (1%Z,
     ["❌ Error: DEEPGRAM_API_KEY not set in .env file";
      "Get your key from: https://console.deepgram.com/"],
     None)
  else if key_invalid cartesia_api_key then
    (1%Z,
     ["❌ Error: CARTESIA_API_KEY not set in .env file";
      "Get your key from: https://cartesia.ai/"],
     None)
  else if negb ctor_ok then
    (1%Z, ["❌ Fatal error: {}"], None)
  else
    match run envs close_ok novo_assistente with
    | (Return _, w) => (0%Z, [], Some w)
    | (Raise _, w) => (1%Z, ["❌ Fatal error: {}"], Some w)
    end.

(** A scripted iteration in which SIGINT arrives while the agent is being
    awaited. *)
Definition env_shutdown : TurnEnv :=
  mkEnv (WakeResult true "NERO OUVIR") false true (Listened (Heard "RIFF"))
        (Transcribed "que horas sao") (AgentReturns true) true
        "Sao dez horas." (SignalAt 1200).

Definition line_response_complete : LogEntry := mkLog Complete "Response complete" [].
Definition line_fatal : LogEntry := mkLog Error "Fatal error in main loop" [].
Definition line_shutdown_complete : LogEntry :=
  mkLog Complete "NERO shutdown complete" [].

Definition is_detectar_wake_word (c : Call) : bool :=
  match c with CDetectarWakeWord _ => true | _ => false end.

(** How many times the wake-word detector was called. *)
Definition wake_calls (w : World) : nat :=
  List.length (filter is_detectar_wake_word (calls w)).

End NeroAssistant.

(** ** The stop-word listener of [STTFraco] *)

Module STTFraco.

(** The dicts put on [_stop_word_queue]:
    [{"detected": True, "palavra": w}] and [{"detected": False, "reason": r}]. *)
Inductive DetectionEvent :=
| EvDetected (palavra : string)
| EvNotDetected (reason : string).

(** The attributes of [STTFraco] the listener touches, with what it asked of
    the logger and of the caller's [callback]. *)
Record Listener := mkListener {
  _stop_word_detected : bool;
  _stop_word_queue : list DetectionEvent;   (* FIFO: [put] appends, [get] takes the head *)
  callback_calls : list string;             (* arguments of [callback], most recent first *)
  listener_log : list LogEntry              (* most recent first *)
}.

Definition queue_put (e : DetectionEvent) (l : Listener) : Listener :=
  mkListener (_stop_word_detected l) (_stop_word_queue l ++ [e])
             (callback_calls l) (listener_log l).
Definition set_detected (b : bool) (l : Listener) : Listener :=
  mkListener b (_stop_word_queue l) (callback_calls l) (listener_log l).
Definition note_callback (w : string) (l : Listener) : Listener :=
  mkListener (_stop_word_detected l) (_stop_word_queue l)
             (w :: callback_calls l) (listener_log l).
Definition llog (m : LogMethod) (template : string) (args : list string)
  (l : Listener) : Listener :=
  mkListener (_stop_word_detected l) (_stop_word_queue l)
             (callback_calls l) (mkLog m template args :: listener_log l).

(** [recognizer.recognize_sphinx]. *)
Inductive SphinxOutcome :=
| SphinxText (texto : string)
| SphinxUnknownValue          (* sr.UnknownValueError *)
| SphinxRequestError          (* sr.RequestError *)
| SphinxRaises.               (* anything else *)

(** [recognizer.recognize_google]. *)
Inductive GoogleOutcome :=
| GoogleText (texto : string)
| GoogleRaises.

(** What the environment answers during one pass of [while True]. *)
Record Attempt := mkAttempt {
  elapsed_ms : Z;                 (* loop.time() - start_time, at the check *)
  heard : ListenOutcome;          (* recognizer.listen(source, timeout=5, ...) *)
  sphinx : SphinxOutcome;
  google : GoogleOutcome;
  callback_raises : bool          (* the caller's callback raises an Exception *)
}.

(** [for stop_word in stop_words: if stop_word.upper() in texto_upper]:
    the first stop word found in what was heard. *)
Definition first_match (stop_words : list string) (texto : string) : option string :=
  let texto_upper := PyStr.strip (PyStr.upper texto) in
  find (fun stop_word => PyStr.contains (PyStr.upper stop_word) texto_upper) stop_words.

(** How a pass of the loop body ends. *)
Inductive PassEnd := PassReturn | PassContinue.

(** The body of the for loop at a match: flag, put, callback, return.  A
    raise of the callback leaves the [return] unreached. *)
Definition on_match (a : Attempt) (stop_word : string) (l : Listener)
  : outcome PassEnd * Listener :=
  let l := llog StopWord "Stop word detected: '{}'" [stop_word] l in
  let l := set_detected true l in
  let l := queue_put (EvDetected stop_word) l in
  let l := note_callback stop_word l in
  if callback_raises a then (Raise OtherException, l)
  else (Return PassReturn, l).

(** One pass of [while True] after the timeout check. *)
Definition listen_pass (stop_words : list string) (a : Attempt) (l : Listener)
  : PassEnd * Listener :=
  match heard a with
  | ListenWaitTimeout => (PassContinue, l)
  | ListenRaises =>
      (PassContinue, llog Debug "Stop word detection error: {}" [] l)
  | Heard _ =>
      match sphinx a with
      | SphinxText texto =>
          let l := llog Debug "Stop check heard: '{}'" [texto] l in
          match first_match stop_words texto with
          | Some stop_word =>
              match on_match a stop_word l with
              | (Return r, l') => (r, l')
              | (Raise _, l') =>
                  (* except Exception as e: debug; continue *)
                  (PassContinue, llog Debug "Stop word detection error: {}" [] l')
              end
          | None => (PassContinue, l)
          end
      | SphinxUnknownValue => (PassContinue, l)
      | SphinxRequestError =>
          match google a with
          | GoogleText texto =>
              match first_match stop_words texto with
              | Some stop_word =>
                  match on_match a stop_word l with
                  | (Return r, l') => (r, l')
                  | (Raise _, l') => (PassContinue, l')  (* except Exception: continue *)
                  end
              | None => (PassContinue, l)
              end
          | GoogleRaises => (PassContinue, l)
          end
      | SphinxRaises =>
          (PassContinue, llog Debug "Stop word detection error: {}" [] l)
      end
  end.

(** How the thread was left: its function returned, or the scripted
    attempts ran out while it was still looping. *)
Inductive ThreadEnd := Exited | StillListening.

Fixpoint listen_loop (stop_words : list string) (timeout_ms : Z)
  (script : list Attempt) (l : Listener) : ThreadEnd * Listener :=
  match script with
  | [] => (StillListening, l)
  | a :: rest =>
      if (elapsed_ms a >=? timeout_ms)%Z then
        let l := llog Warning "Stop word timeout after {}s" [] l in
        (Exited, queue_put (EvNotDetected "timeout") l)
      else
        match listen_pass stop_words a l with
        | (PassReturn, l') => (Exited, l')
        | (PassContinue, l') => listen_loop stop_words timeout_ms rest l'
        end
  end.

(** [_listen_for_stop]: [setup_ok] tells whether [_get_microphone()] and the
    first reading of the clock, [asyncio.get_event_loop().time()], went
    through.  [get_event_loop] raises [RuntimeError] in a thread that has no
    event loop; the thread [aguardar_palavra_parada] starts sets none, and
    nothing in the program gives it one, so the program runs this function
    with [setup_ok = false].  The loop below is what the function does where
    the thread is given a loop. *)
Definition _listen_for_stop (stop_words : list string) (timeout_ms : Z)
  (setup_ok : bool) (script : list Attempt) (l : Listener) : ThreadEnd * Listener :=
  let l := llog Debug "Background stop word detection started for: {}" stop_words l in
  if setup_ok then listen_loop stop_words timeout_ms script l
  else
    let l := llog Error "Fatal error in stop word detection" [] l in
    (Exited, queue_put (EvNotDetected "error") l).

(** [aguardar_palavra_parada]: the flag and the queue are renewed, then the
    thread runs. *)
Definition aguardar_palavra_parada (stop_words : list string) (timeout_ms : Z)
  (setup_ok : bool) (script : list Attempt) (l : Listener) : ThreadEnd * Listener :=
  let l := mkListener false [] (callback_calls l) (listener_log l) in
  let (r, l) := _listen_for_stop stop_words timeout_ms setup_ok script l in
  (r, llog Debug "Stop word detection thread started" [] l).

(** [verificar_palavra_parada_detectada]: [get_nowait], [None] on [queue.Empty]. *)
Definition verificar_palavra_parada_detectada (l : Listener)
  : option DetectionEvent * Listener :=
  match _stop_word_queue l with
  | [] => (None, l)
  | e :: q =>
      (Some e, mkListener (_stop_word_detected l) q (callback_calls l) (listener_log l))
  end.

(** [n] polls in a row: what each returned, and the listener afterwards. *)
Fixpoint poll_n (n : nat) (l : Listener) : list (option DetectionEvent) * Listener :=
  match n with
  | O => ([], l)
  | S n' =>
      let (r, l') := verificar_palavra_parada_detectada l in
      let (rs, l'') := poll_n n' l' in
      (r :: rs, l'')
  end.

(** What a run added to the queue. *)
Definition enqueued (before after : Listener) (evs : list DetectionEvent) : Prop :=
  _stop_word_queue after = (_stop_word_queue before ++ evs)%list.

(** A scripted invocation: the stop phrase is heard after four seconds and
    the caller's callback raises; at the next check the ten minutes are
    over. *)
Definition idle_listener : Listener := mkListener false [] [] [].

Definition script_callback_raises : list Attempt :=
  [ mkAttempt 4000 (Heard "RIFF") (SphinxText "nero enviar") GoogleRaises true;
    mkAttempt 600000 ListenWaitTimeout SphinxUnknownValue GoogleRaises false ].

Definition listener_after_callback_raises : Listener :=
  mkListener true
    [EvDetected "NERO ENVIAR"; EvNotDetected "timeout"]
    ["NERO ENVIAR"]
    [ mkLog Debug "Stop word detection thread started" [];
      mkLog Warning "Stop word timeout after {}s" [];
      mkLog Debug "Stop word detection error: {}" [];
      mkLog StopWord "Stop word detected: '{}'" ["NERO ENVIAR"];
      mkLog Debug "Stop check heard: '{}'" ["nero enviar"];
      mkLog Debug "Background stop word detection started for: {}"
            ["NERO ENVIAR"; "ENVIAR"; "ENVIAR NERO"] ].

(** [stop_detection]. *)
Definition stop_detection (l : Listener) : Listener :=
  llog Debug "Stop word detection stopped" [] (set_detected true l).

(** *** Wake-word detection *)

(** The attributes [detectar_wake_word] touches: the cached microphone
    object ([true] once built), the recogniser's energy threshold (only its
    equality with the initial 300 is looked at), and the logger. *)
Record Detector := mkDetector {
  microphone : bool;
  energy_threshold : Z;
  detector_log : list LogEntry          (* most recent first *)
}.

Definition dlog (m : LogMethod) (template : string) (args : list string)
  (d : Detector) : Detector :=
  mkDetector (microphone d) (energy_threshold d)
             (mkLog m template args :: detector_log d).

(** What the environment answers during one pass of the detection loop. *)
Record WakeAttempt := mkWakeAttempt {
  w_heard : ListenOutcome;        (* recognizer.listen(source, ...) *)
  w_sphinx : SphinxOutcome;
  w_google : GoogleOutcome
}.

Record WakeEnv := mkWakeEnv {
  mic_ctor_ok : bool;             (* sr.Microphone(...) builds *)
  calibration : option Z;         (* the threshold adjust_for_ambient_noise
                                     sets; [None] when it raises *)
  attempts : list WakeAttempt
}.

(** The dict [detectar_wake_word] returns. *)
Record WakeDict := mkWakeDict {
  detected : bool;
  palavra : string;
  audio_data : option string
}.

Definition not_detected : WakeDict := mkWakeDict false "" None.

(** [_get_microphone]: builds the object on first use, and re-raises when
    that fails. *)
Definition _get_microphone (ctor_ok : bool) (d : Detector)
  : outcome unit * Detector :=
  if microphone d then (Return tt, d)
  else if ctor_ok then
    (Return tt,
     dlog Debug "Microphone initialized (device: {})" ["default"]
       (mkDetector true (energy_threshold d) (detector_log d)))
  else
    (Raise OtherException, dlog Error "Failed to initialize microphone" [] d).

(** [calibrate_ambient_noise]: every failure ends in a warning. *)
Definition calibrate_ambient_noise (env : WakeEnv) (d : Detector) : Detector :=
  match _get_microphone (mic_ctor_ok env) d with
  | (Raise _, d) => dlog Warning "Ambient noise calibration failed: {}" [] d
  | (Return _, d) =>
      let d := dlog Info "Calibrating for ambient noise ({}s)..." [] d in
      match calibration env with
      | Some v =>
          dlog Info "Ambient noise calibrated (energy_threshold={})" []
            (mkDetector (microphone d) v (detector_log d))
      | None => dlog Warning "Ambient noise calibration failed: {}" [] d
      end
  end.

(** The [while True] of [detectar_wake_word]: [None] when the scripted
    attempts ran out while it was still looping. *)
Fixpoint wake_loop (wake_words : list string) (script : list WakeAttempt)
  (d : Detector) : option WakeDict * Detector :=
  match script with
  | [] => (None, d)
  | a :: rest =>
      match w_heard a with
      | ListenWaitTimeout =>
          (Some not_detected, dlog Debug "No speech detected (timeout)" [] d)
      | ListenRaises =>
          wake_loop wake_words rest
            (dlog Error "Error during wake word detection: {}" [] d)
      | Heard wav =>
          match w_sphinx a with
          | SphinxText texto =>
              let d := dlog Debug "Heard: '{}'" [texto] d in
              match first_match wake_words texto with
              | Some wake_word =>
                  (Some (mkWakeDict true wake_word (Some wav)),
                   dlog Complete "Wake word detected: '{}'" [wake_word] d)
              | None => wake_loop wake_words rest d
              end
          | SphinxUnknownValue =>
              wake_loop wake_words rest
                (dlog Debug "Speech detected but not recognized" [] d)
          | SphinxRequestError =>
              let d := dlog Error "Sphinx recognition failed: {}" [] d in
              match w_google a with
              | GoogleText texto =>
                  let d := dlog Debug "Heard (Google): '{}'" [texto] d in
                  match first_match wake_words texto with
                  | Some wake_word =>
                      (Some (mkWakeDict true wake_word (Some wav)),
                       dlog Complete "Wake word detected: '{}'" [wake_word] d)
                  | None => wake_loop wake_words rest d
                  end
              | GoogleRaises => wake_loop wake_words rest d
              end
          | SphinxRaises =>
              wake_loop wake_words rest
                (dlog Error "Error during wake word detection: {}" [] d)
          end
      end
  end.

Definition detectar_wake_word (wake_words : list string) (env : WakeEnv)
  (d : Detector) : option WakeDict * Detector :=
  let d := dlog Debug "Starting wake word detection for: {}" wake_words d in
  match _get_microphone (mic_ctor_ok env) d with
  | (Raise _, d) =>
      (Some not_detected, dlog Error "Fatal error in wake word detection" [] d)
  | (Return _, d) =>
      let d := if (energy_threshold d =? 300)%Z
               then calibrate_ambient_noise env d else d in
      let d := dlog Listening "Listening for wake word..." [] d in
      wake_loop wake_words (attempts env) d
  end.

(** The text an attempt recognised, by Sphinx or, Sphinx being out of
    order, by the fallback. *)
Definition recognised (a : WakeAttempt) : option string :=
  match w_heard a, w_sphinx a, w_google a with
  | Heard _, SphinxText texto, _ => Some texto
  | Heard _, SphinxRequestError, GoogleText texto => Some texto
  | _, _, _ => None
  end.

(** The dict of the detector as a turn of the orchestrator takes it. *)
Definition wake_answer (r : WakeDict) : WakeOutcome :=
  WakeResult (detected r) (palavra r).


(** A detector whose microphone is built, and a wake environment in which
    the wake word is heard at the second attempt. *)
Definition idle_detector : Detector := mkDetector true 300%Z [].

Definition wenv_second_attempt : WakeEnv :=
  mkWakeEnv true (Some 420%Z)
    [ mkWakeAttempt (Heard "RIFF") (SphinxText "bom dia") GoogleRaises;
      mkWakeAttempt (Heard "RIFF") (SphinxText "nero ouvir") GoogleRaises ].

(** A scripted invocation of the stop-word listener whose callback
    returns. *)
Definition script_stop_heard : list Attempt :=
  [ mkAttempt 2000 ListenWaitTimeout SphinxUnknownValue GoogleRaises false;
    mkAttempt 9000 (Heard "RIFF") (SphinxText "pode enviar") GoogleRaises false ].

End STTFraco.

(** ** The TTS summary of [AgentHandler] *)

Module AgentHandler.

Definition max_chars : nat := 200.

(** [last_space > max_chars * 0.8]: in binary64 [200 * 0.8] is [160.0], so
    the test is the integer one, written here without the division. *)
Definition in_last_fifth (last_space : Z) : bool :=
  (10 * last_space >? 8 * Z.of_nat max_chars)%Z.

Definition _gerar_resumo_tts (texto : string) : string :=
  if PyStr.is_empty texto then ""
  else if (String.length texto <=? max_chars)%nat then texto
  else
    let truncado := PyStr.slice_to texto max_chars in
    let last_space := PyStr.rfind truncado " " in
    let truncado :=
      if in_last_fifth last_space
      then PyStr.slice_to truncado (Z.to_nat last_space)
      else truncado in
    if (String.length truncado <? String.length texto)%nat
    then truncado ++ "..."
    else truncado.

(** *** The agent call and its Stop hook *)

(** A logger call with its level as [NeroLogger.log] receives it. *)
Record Line := mkLine {
  level : string;
  template : string;
  largs : list string
}.

(** A message of the SDK, by the attributes the handler looks for:
    [tool_use] (name and [str(input)]) when present and truthy, [role] and
    [content] when present. *)
Record Message := mkMessage {
  tool_use : option (string * string);
  role : option string;
  content : option string
}.

(** The response of [query]: [messages] when the attribute is there,
    [str(response.result)] when that attribute is there, and
    [str(response)]. *)
Record Response := mkResponse {
  messages : option (list Message);
  result : option string;
  as_str : string
}.

(** What the SDK does with one query: the import fails, the query raises
    with a message, or it answers; before it answers it may have fired the
    Stop hook, with a context that has a [messages] attribute or not. *)
Inductive SdkOutcome :=
| SdkImportError
| SdkRaises (hook : option (option (list Message))) (msg : string)
| SdkResponds (hook : option (option (list Message))) (response : Response).

(** The estimated cost: the literal [0.0], or the estimate computed from the
    two word counts (the float arithmetic itself is not modelled). *)
Inductive Custo :=
| CustoZero
| CustoEstimado (input_words output_words : nat).

(** The dict [processar_prompt] returns. *)
Record Resultado := mkResultado {
  resultado : string;
  ferramentas_usadas : list (string * string);   (* nome, input *)
  custo_usd : Custo;
  sucesso : bool
}.

(** The handler: whether a TTS callback is registered, the texts the
    callback was scheduled with and the prompts sent to the SDK (both most
    recent first), and the logger calls. *)
Record Handler := mkHandler {
  _tts_callback : bool;
  spoken : list string;
  queries : list string;
  hlog : list Line
}.

Definition hlogger (lv template : string) (args : list string) (h : Handler)
  : Handler :=
  mkHandler (_tts_callback h) (spoken h) (queries h)
            (mkLine lv template args :: hlog h).

Definition set_tts_callback (h : Handler) : Handler :=
  hlogger "DEBUG" "TTS callback registered" []
    (mkHandler true (spoken h) (queries h) (hlog h)).

(** [hasattr(message, "role") and message.role == "assistant"]. *)
Definition is_assistant (m : Message) : bool :=
  match role m with
  | Some r => String.eqb r "assistant"
  | None => false
  end.

(** The loop of [_on_stop] over [reversed(context.messages)]: the content of
    the first assistant message that has one. *)
Fixpoint scan_assistant (reversed : list Message) : string :=
  match reversed with
  | [] => ""
  | m :: rest =>
      if is_assistant m then
        match content m with
        | Some c => c
        | None => scan_assistant rest
        end
      else scan_assistant rest
  end.

(** An assistant message with a [content] attribute. *)
Definition has_answer (m : Message) : bool :=
  is_assistant m && match content m with Some _ => true | None => false end.

Definition final_response (context : option (list Message)) : string :=
  match context with
  | Some msgs => scan_assistant (rev msgs)
  | None => ""
  end.

(** [_on_stop], the callback of the Stop hook. *)
Definition _on_stop (context : option (list Message)) (h : Handler) : Handler :=
  let h := hlogger "DEBUG" "Agent completion hook triggered" [] h in
  let resumo_tts := _gerar_resumo_tts (final_response context) in
  if _tts_callback h && negb (PyStr.is_empty resumo_tts) then
    let h := hlogger "DEBUG" "Triggering TTS callback" [] h in
    mkHandler (_tts_callback h) (resumo_tts :: spoken h) (queries h) (hlog h)
  else h.

(** [len(s.split())]: the number of maximal runs without white space. *)
Fixpoint word_count_from (in_word : bool) (s : string) : nat :=
  match s with
  | EmptyString => 0
  | String c s' =>
      if PyStr.is_space c then word_count_from false s'
      else (if in_word then 0 else 1) + word_count_from true s'
  end.

Definition word_count (s : string) : nat := word_count_from false s.

(** One step of the loop over [response.messages]: the tools used so far,
    the response text so far, the handler. *)
Definition parse_message (acc : list (string * string) * string * Handler)
  (m : Message) : list (string * string) * string * Handler :=
  let '(ferramentas, texto, h) := acc in
  let '(ferramentas, h) :=
    match tool_use m with
    | Some (tool_name, tool_input) =>
        ((ferramentas ++ [(tool_name, PyStr.slice_to tool_input 100)])%list,
         hlogger "TOOL" "Using {}" [tool_name] h)
    | None => (ferramentas, h)
    end in
  let texto :=
    if is_assistant m then
      match content m with
      | Some c => c
      | None => texto
      end
    else texto in
  (ferramentas, texto, h).

Definition messages_of (response : Response) : list Message :=
  match messages response with
  | Some msgs => msgs
  | None => []
  end.

Definition processar_prompt (transcricao : string) (sdk : SdkOutcome)
  (h : Handler) : Resultado * Handler :=
  if PyStr.is_empty transcricao || PyStr.is_empty (PyStr.strip transcricao) then
    (mkResultado "" [] CustoZero false,
     hlogger "WARNING" "Empty transcription provided to agent" [] h)
  else
    let h := hlogger "AGENT" "Processing prompt: '{}...'"
                     [PyStr.slice_to transcricao 100] h in
    match sdk with
    | SdkImportError =>
        (mkResultado "Desculpe, o SDK do Claude Agent não está instalado."
                     [] CustoZero false,
         hlogger "ERROR"
           "Claude Agent SDK not installed. Install with: pip install claude-agent-sdk"
           [] h)
    | SdkRaises hook msg =>
        let h := hlogger "DEBUG" "Sending query to Claude Agent SDK..." [] h in
        let h := mkHandler (_tts_callback h) (spoken h)
                           (transcricao :: queries h) (hlog h) in
        let h := match hook with
                 | Some context => _on_stop context h
                 | None => h
                 end in
        (mkResultado
           ("Desculpe, ocorreu um erro ao processar sua solicitação: " ++ msg)
           [] CustoZero false,
         hlogger "ERROR" "Failed to process prompt with agent" [] h)
    | SdkResponds hook response =>
        let h := hlogger "DEBUG" "Sending query to Claude Agent SDK..." [] h in
        let h := mkHandler (_tts_callback h) (spoken h)
                           (transcricao :: queries h) (hlog h) in
        let h := match hook with
                 | Some context => _on_stop context h
                 | None => h
                 end in
        let '(ferramentas, texto, h) :=
          fold_left parse_message (messages_of response) ([], "", h) in
        let texto :=
          if PyStr.is_empty texto then
            match result response with
            | Some r => r
            | None => texto
            end
          else texto in
        let texto := if PyStr.is_empty texto then as_str response else texto in
        let h := hlogger "COMPLETE" "Agent response received: '{}...'"
                         [PyStr.slice_to texto 100] h in
        (mkResultado texto ferramentas
                     (CustoEstimado (word_count transcricao) (word_count texto))
                     true,
         h)
    end.

(** The names of the tools a list of messages used, in order. *)
Definition tool_names (msgs : list Message) : list string :=
  flat_map (fun m => match tool_use m with
                     | Some (n, _) => [n]
                     | None => []
                     end) msgs.

Definition idle_handler : Handler := set_tts_callback (mkHandler false [] [] []).

(** [n] copies of [s]. *)
Fixpoint copies (n : nat) (s : string) : string :=
  match n with
  | O => EmptyString
  | S n' => s ++ copies n' s
  end.

(** A response of 234 characters. *)
Definition texto_longo : string := copies 26 "uma frase ".

(** [not transcricao or not transcricao.strip()]. *)
Definition is_blank (transcricao : string) : bool :=
  PyStr.is_empty transcricao || PyStr.is_empty (PyStr.strip transcricao).

(** A scripted answer: one tool call, then the assistant's text. *)
Definition answer_with_tool : Response :=
  mkResponse
    (Some [ mkMessage (Some ("Bash", "{'command': 'date'}")) (Some "assistant") None;
            mkMessage None (Some "user") (Some "ter 4 nov 2026");
            mkMessage None (Some "assistant") (Some "Hoje e terca-feira.") ])
    None "<Response>".

End AgentHandler.

(** ** HTTP collaborators *)

(** What [client.post] does: it raises [httpx.TimeoutException],
    [httpx.HTTPStatusError] or something else, or it answers with a status
    code and a body. *)
Inductive PostOutcome (Body : Type) :=
| PostTimeout
| PostHTTPStatusError
| PostRaises
| PostResponds (status_code : Z) (body : Body).
Arguments PostTimeout {Body}.
Arguments PostHTTPStatusError {Body}.
Arguments PostRaises {Body}.
Arguments PostResponds {Body} status_code body.

(** ** Speech synthesis: [TTS] *)

Module TTS.
Import AgentHandler.

Definition VOICES : list (string * string) :=
  [ ("ana", "79a125e8-cd45-4c13-8a67-a188a65c6d09");
    ("lucas", "d6b6e68a-407c-45b0-9330-b96511922666") ].

(** [self.VOICES.get(voice.lower(), self.VOICES["ana"])]. *)
Definition _get_voice_id (voice : string) : string :=
  match MaquinaEstadosNero.dict_get (PyStr.lower voice) VOICES with
  | Some id => id
  | None => "79a125e8-cd45-4c13-8a67-a188a65c6d09"
  end.

(** The JSON payload of a synthesis request. *)
Record Payload := mkPayload {
  transcript : string;
  voice_id : string;
  container : string;
  style : string
}.

(** The dict [gerar_audio] returns.  The duration is kept as the number of
    bytes it is computed from: seconds = bytes / 16384, a division that is
    exact in binary64; 0 stands for the literal 0. *)
Record Audio := mkAudio {
  sucesso : bool;
  caminho_arquivo : string;
  duracao_bytes : nat;
  texto : string
}.

(** The synthesiser: its key, the requests posted, the files written (path
    and content), the players run (command and path), all most recent
    first, and the logger calls. *)
Record Tts := mkTts {
  api_key : string;
  posts : list Payload;
  files : list (string * string);
  played : list (string * string);
  tlog : list Line
}.

Definition tlogger (lv template : string) (args : list string) (t : Tts) : Tts :=
  mkTts (api_key t) (posts t) (files t) (played t)
        (mkLine lv template args :: tlog t).

(** What the environment answers during one [gerar_audio]: the post, the
    path made of the temp directory and the clock, whether the file can be
    written. *)
Record GerarEnv := mkGerarEnv {
  post : PostOutcome string;
  filepath : string;
  write_ok : bool
}.

Definition falhou (texto : string) : Audio := mkAudio false "" 0 texto.

Definition gerar_audio (texto voz estilo output_format : string)
  (env : GerarEnv) (t : Tts) : Audio * Tts :=
  if is_blank texto then
    (falhou "", tlogger "WARNING" "Empty text provided for TTS" [] t)
  else if NeroAssistant.key_invalid (api_key t) then
    (falhou texto,
     tlogger "ERROR"
       "Invalid Cartesia API key. Please set CARTESIA_API_KEY in .env file" [] t)
  else
    let t := tlogger "TTS" "Generating audio for: '{}...'"
                     [PyStr.slice_to texto 50] t in
    let payload := mkPayload texto (_get_voice_id voz) output_format estilo in
    let t := mkTts (api_key t) (payload :: posts t) (files t) (played t) (tlog t) in
    match post env with
    | PostTimeout => (falhou texto, tlogger "ERROR" "Cartesia API timeout" [] t)
    | PostHTTPStatusError =>
        (falhou texto, tlogger "ERROR" "Cartesia HTTP error: {}" [] t)
    | PostRaises => (falhou texto, tlogger "ERROR" "Failed to generate audio" [] t)
    | PostResponds status_code audio_data =>
        if negb (status_code =? 200)%Z then
          (falhou texto, tlogger "ERROR" "Cartesia API error: {} - {}" [] t)
        else if negb (write_ok env) then
          (falhou texto, tlogger "ERROR" "Failed to generate audio" [] t)
        else
          let t := mkTts (api_key t) (posts t)
                         ((filepath env, audio_data) :: files t)
                         (played t) (tlog t) in
          (mkAudio true (filepath env) (String.length audio_data) texto,
           tlogger "COMPLETE" "Audio generated: {} ({}s)" [filepath env] t)
    end.

(** What the environment answers during one [reproduzir_audio]. *)
Record PlayEnv := mkPlayEnv {
  file_exists : bool;       (* os.path.exists *)
  system : string;          (* platform.system() *)
  player_ok : bool          (* subprocess.run(..., check=True) returns *)
}.

(** The player of a platform, when it has one. *)
Definition player (system : string) : option string :=
  if String.eqb system "Windows" then Some "powershell"
  else if String.eqb system "Linux" then Some "aplay"
  else if String.eqb system "Darwin" then Some "afplay"
  else None.

Definition reproduzir_audio (caminho_arquivo : string) (env : PlayEnv) (t : Tts)
  : bool * Tts :=
  if negb (file_exists env) then
    (false, tlogger "ERROR" "Audio file not found: {}" [caminho_arquivo] t)
  else
    let t := tlogger "TTS" "Playing audio: {}" [caminho_arquivo] t in
    match player (system env) with
    | None => (false, tlogger "WARNING" "Unknown platform: {}" [system env] t)
    | Some command =>
        let t := mkTts (api_key t) (posts t) (files t)
                       ((command, caminho_arquivo) :: played t) (tlog t) in
        if player_ok env then
          (true, tlogger "COMPLETE" "Audio playback complete" [] t)
        else
          (false,
           tlogger "INFO" "Audio playback failed, showing text instead" []
             (tlogger "ERROR" "Failed to play audio: {}" [] t))
    end.

Definition falar (texto voz estilo : string) (tocar_automatically : bool)
  (genv : GerarEnv) (penv : PlayEnv) (t : Tts) : Audio * Tts :=
  let (result, t) := gerar_audio texto voz estilo "mp3" genv t in
  if sucesso result && tocar_automatically then
    let (_, t) := reproduzir_audio (caminho_arquivo result) penv t in
    (result, t)
  else (result, t).

(** The audio a request produced: the body of a 200 answer, when the file
    could be written. *)
Definition generated (env : GerarEnv) : option string :=
  match post env with
  | PostResponds status_code audio_data =>
      if (status_code =? 200)%Z && write_ok env then Some audio_data else None
  | _ => None
  end.

Definition idle_tts : Tts := mkTts "sk-cartesia" [] [] [] [].

End TTS.

(** ** Transcription: [STTForte] *)

Module STTForte.
Import AgentHandler.

(** A parsed JSON document as the Python value [response.json()] gives.  An
    object is the dict, with one entry per key; of a number only whether it
    is non-zero is ever looked at. *)
#[warnings="-register-all"]
Inductive Json :=
| JNull
| JBool (b : bool)
| JNum (nonzero : bool)
| JStr (s : string)
| JArr (items : list Json)
| JObj (members : list (string * Json)).

Fixpoint lookup (key : string) (members : list (string * Json)) : option Json :=
  match members with
  | [] => None
  | (k, v) :: rest => if String.eqb key k then Some v else lookup key rest
  end.

(** The operations of Python the extraction applies, [None] standing for
    the exception they raise ([TypeError], [KeyError], [IndexError],
    [AttributeError]). *)

(** [key in v]. *)
Definition py_in (key : string) (v : Json) : option bool :=
  match v with
  | JObj members =>
      Some (match lookup key members with Some _ => true | None => false end)
  | JArr items =>
      Some (existsb (fun x => match x with
                              | JStr s => String.eqb s key
                              | _ => false
                              end) items)
  | JStr s => Some (PyStr.contains key s)
  | _ => None
  end.

(** [v[key]] for a string key. *)
Definition py_getitem (v : Json) (key : string) : option Json :=
  match v with
  | JObj members => lookup key members
  | _ => None
  end.

(** [v[0]]. *)
Definition py_first (v : Json) : option Json :=
  match v with
  | JArr (x :: _) => Some x
  | JStr (String c _) => Some (JStr (String c EmptyString))
  | _ => None
  end.

(** [v.get(key, default)]. *)
Definition py_get (v : Json) (key : string) (default : Json) : option Json :=
  match v with
  | JObj members =>
      Some (match lookup key members with Some x => x | None => default end)
  | _ => None
  end.

(** [bool(v)]. *)
Definition truthy (v : Json) : bool :=
  match v with
  | JNull => false
  | JBool b => b
  | JNum nonzero => nonzero
  | JStr s => negb (PyStr.is_empty s)
  | JArr items => match items with [] => false | _ => true end
  | JObj members => match members with [] => false | _ => true end
  end.

(** [len(v)]. *)
Definition py_len (v : Json) : option nat :=
  match v with
  | JStr s => Some (String.length s)
  | JArr items => Some (List.length items)
  | JObj members => Some (List.length members)
  | _ => None
  end.

Definition obind {A B} (o : option A) (k : A -> option B) : option B :=
  match o with
  | Some a => k a
  | None => None
  end.

(** Lines 126-136: the transcript taken from the parsed body, and the number
    of words when the debug line is printed; [None] when an exception is
    raised on the way. *)
Definition extract (verbose : bool) (result : Json) : option (Json * option nat) :=
  obind (py_in "results" result) (fun has_results =>
  if negb has_results then Some (JStr "", None) else
  obind (py_getitem result "results") (fun results =>
  obind (py_in "channels" results) (fun has_channels =>
  if negb has_channels then Some (JStr "", None) else
  obind (py_getitem results "channels") (fun channels =>
  obind (py_first channels) (fun channel =>
  obind (py_in "alternatives" channel) (fun has_alternatives =>
  if negb has_alternatives then Some (JStr "", None) else
  obind (py_getitem channel "alternatives") (fun alternatives =>
  obind (py_first alternatives) (fun alternative =>
  obind (py_get alternative "transcript" (JStr "")) (fun transcript =>
  obind (py_get alternative "words" (JArr [])) (fun words =>
  if verbose && truthy words then
    obind (py_len words) (fun n => Some (transcript, Some n))
  else Some (transcript, None))))))))))).

(** The progress callback: absent, or present and raising at one of its
    stages or at none. *)
Inductive Callback :=
| NoCallback
| CallbackGiven (raises_at : option string).

(** The transcriber: its key, whether the logger is verbose, the audio
    posted and the stages reported to the callback (most recent first), and
    the logger calls. *)
Record Stt := mkStt {
  api_key : string;
  verbose : bool;
  posted : list string;
  progress : list string;
  slog : list Line
}.

Definition slogger (lv template : string) (args : list string) (t : Stt) : Stt :=
  mkStt (api_key t) (verbose t) (posted t) (progress t)
        (mkLine lv template args :: slog t).

(** [if callback: callback(stage)]: [None] when the callback raises. *)
Definition report (callback : Callback) (stage : string) (t : Stt) : option Stt :=
  match callback with
  | NoCallback => Some t
  | CallbackGiven raises_at =>
      let t := mkStt (api_key t) (verbose t) (posted t) (stage :: progress t)
                     (slog t) in
      match raises_at with
      | Some s => if String.eqb s stage then None else Some t
      | None => Some t
      end
  end.

Definition failed (t : Stt) : Json * Stt :=
  (JStr "", slogger "ERROR" "Failed to transcribe audio" [] t).

(** [post]: the body is the parsed JSON, [None] when [response.json()]
    raises. *)
Definition transcrever_audio_file (audio_data : string) (callback : Callback)
  (post : PostOutcome (option Json)) (t : Stt) : Json * Stt :=
  if NeroAssistant.key_invalid (api_key t) then
    (JStr "",
     slogger "ERROR"
       "Invalid Deepgram API key. Please set DEEPGRAM_API_KEY in .env file" [] t)
  else
    let t := slogger "TRANSCRIBING"
                     "Sending audio to Deepgram for transcription..." [] t in
    match report callback "sending" t with
    | None =>
        failed (mkStt (api_key t) (verbose t) (posted t)
                      ("sending" :: progress t) (slog t))
    | Some t =>
        let t := mkStt (api_key t) (verbose t) (audio_data :: posted t)
                       (progress t) (slog t) in
        match post with
        | PostTimeout => (JStr "", slogger "ERROR" "Deepgram API timeout" [] t)
        | PostHTTPStatusError =>
            (JStr "", slogger "ERROR" "Deepgram HTTP error: {}" [] t)
        | PostRaises => failed t
        | PostResponds status_code body =>
            match report callback "processing" t with
            | None =>
                failed (mkStt (api_key t) (verbose t) (posted t)
                              ("processing" :: progress t) (slog t))
            | Some t =>
                if negb (status_code =? 200)%Z then
                  (JStr "", slogger "ERROR" "Deepgram API error: {} - {}" [] t)
                else
                  match body with
                  | None => failed t
                  | Some result =>
                      match report callback "complete" t with
                      | None =>
                          failed (mkStt (api_key t) (verbose t) (posted t)
                                        ("complete" :: progress t) (slog t))
                      | Some t =>
                          match extract (verbose t) result with
                          | None => failed t
                          | Some (transcript, words) =>
                              let t := match words with
                                       | Some _ =>
                                           slogger "DEBUG" "Transcribed {} words" [] t
                                       | None => t
                                       end in
                              if truthy transcript then
                                (transcript, slogger "TRANSCRIPT" "{}" [] t)
                              else
                                (JStr "",
                                 slogger "WARNING"
                                   "Deepgram returned empty transcript" [] t)
                          end
                      end
                  end
            end
        end
    end.

(** One item of the audio stream: a chunk, whether it is the last, and the
    time elapsed (in milliseconds) when it has been appended; or the stream
    raises. *)
Inductive StreamItem :=
| Chunk (data : string) (is_complete : bool) (elapsed_ms : Z)
| StreamRaises.

(** The [async for] of [transcrever_em_tempo_real]: the chunks collected and
    whether the deadline ended the loop; [None] when the stream raises. *)
Fixpoint collect (max_duration_ms : Z) (stream : list StreamItem)
  : option (list string * bool) :=
  match stream with
  | [] => Some ([], false)
  | StreamRaises :: _ => None
  | Chunk data is_complete elapsed_ms :: rest =>
      if (elapsed_ms >=? max_duration_ms)%Z then Some ([data], true)
      else if is_complete then Some ([data], false)
      else
        match collect max_duration_ms rest with
        | Some (chunks, timed_out) => Some (data :: chunks, timed_out)
        | None => None
        end
  end.

Definition transcrever_em_tempo_real (stream : list StreamItem)
  (callback : Callback) (max_duration_ms : Z)
  (post : PostOutcome (option Json)) (t : Stt) : Json * Stt :=
  if NeroAssistant.key_invalid (api_key t) then
    (JStr "",
     slogger "ERROR"
       "Invalid Deepgram API key. Please set DEEPGRAM_API_KEY in .env file" [] t)
  else
    let t := slogger "TRANSCRIBING" "Starting real-time transcription..." [] t in
    let t := slogger "RECORDING" "Max duration: {}s" [] t in
    let t := slogger "DEBUG" "Using file-based transcription (not streaming)" [] t in
    match collect max_duration_ms stream with
    | None => (JStr "", slogger "ERROR" "Real-time transcription failed" [] t)
    | Some (audio_chunks, timed_out) =>
        let t := if timed_out
                 then slogger "WARNING" "Transcription timeout after {}s" [] t
                 else t in
        match audio_chunks with
        | [] => (JStr "", slogger "WARNING" "No audio data collected" [] t)
        | _ => transcrever_audio_file (PyStr.join audio_chunks) callback post t
        end
    end.

(** A body as Deepgram sends it, with one transcript. *)
Definition deepgram_body (transcript : string) : Json :=
  JObj [ ("metadata", JObj [("request_id", JStr "r1")]);
         ("results",
          JObj [ ("channels",
                  JArr [ JObj [ ("alternatives",
                                 JArr [ JObj [ ("transcript", JStr transcript);
                                               ("confidence", JNum true);
                                               ("words", JArr [JObj [("word", JStr "que")]]) ] ]) ] ]) ]) ].

Definition idle_stt : Stt := mkStt "dg-key" false [] [] [].

(** A chunk that neither ends the stream nor reaches the deadline. *)
Definition goes_on (max_duration_ms : Z) (item : StreamItem) : bool :=
  match item with
  | Chunk _ is_complete elapsed_ms =>
      negb is_complete && negb (elapsed_ms >=? max_duration_ms)%Z
  | StreamRaises => false
  end.

Definition chunk_data (item : StreamItem) : string :=
  match item with
  | Chunk data _ _ => data
  | StreamRaises => EmptyString
  end.

Definition is_object (v : Json) : bool :=
  match v with
  | JObj _ => true
  | _ => false
  end.

End STTForte.

(** * Properties *)

(** ** The state machine *)

Section StateMachine.
Import MaquinaEstadosNero.

Lemma dict_mem_In (k : string) (d : list (string * string)) :
  dict_mem k d = true <-> In k (map fst d).
Proof.
  unfold dict_mem. rewrite existsb_exists. split.
  - intros [[k' v] [Hin Heq]]. apply String.eqb_eq in Heq. subst k.
    apply in_map_iff. exists (k', v). auto.
  - intros Hin. apply in_map_iff in Hin. destruct Hin as [kv [Hk Hin]].
    exists kv. split; [assumption|]. subst k. apply String.eqb_refl.
Qed.

Lemma dict_mem_get (k : string) (d : list (string * string)) :
  dict_mem k d = true -> exists v, dict_get k d = Some v.
Proof.
  induction d as [|[k' v] d IH]; simpl; [discriminate|].
  destruct (String.eqb k k'); simpl; eauto.
Qed.

(** An unknown target: one error line, nothing else. *)
Lemma transitar_unknown (novo : string) (w : World) :
  dict_mem novo ESTADOS = false ->
  transitar novo w =
    (Return false, push_log (mkLog Error "Invalid state: {}" [novo]) w).
Proof.
  intros H. unfold transitar. rewrite H. reflexivity.
Qed.

(** A known target: a no-op when it is the current state, else the change. *)
Lemma transitar_known (novo meaning : string) (w : World) :
  dict_get novo ESTADOS = Some meaning ->
  transitar novo w =
    (Return true,
     if String.eqb novo (estado_atual w) then w
     else apos_transicao novo meaning w).
Proof.
  intros Hget.
  assert (Hmem : dict_mem novo ESTADOS = true).
  { apply dict_mem_In. revert Hget.
    generalize ESTADOS. intros d. induction d as [|[k v] d IH]; simpl; [discriminate|].
    destruct (String.eqb_spec novo k); [subst; auto|]. intros H. right. auto. }
  unfold transitar. rewrite Hmem. cbn [negb].
  unfold bind, gets, modify, logger, ret. rewrite Hget.
  destruct (String.eqb novo (estado_atual w)); reflexivity.
Qed.

Lemma transitar_valid_estado (novo : string) (w : World) :
  In novo (map fst ESTADOS) ->
  exists w', transitar novo w = (Return true, w') /\ estado w' = novo.
Proof.
  intros Hin. apply dict_mem_In in Hin.
  destruct (dict_mem_get _ _ Hin) as [m Hm].
  rewrite (transitar_known _ _ _ Hm).
  eexists. split; [reflexivity|].
  destruct (String.eqb_spec novo (estado_atual w)) as [E|E]; [symmetry; exact E|reflexivity].
Qed.

(** C2. Whatever the current state, a target that is not one of the defined
    states makes [transitar] return false; the state read back through
    [estado] is the one before the call, and so are the running flag, the
    completion flag and the calls: the store only gains the error line. *)
Theorem C2_unknown_target_rejected (w : World) (novo : string) :
  ~ In novo (map fst ESTADOS) ->
  exists w',
    transitar novo w = (Return false, w')
    /\ estado w' = estado w
    /\ w' = push_log (mkLog Error "Invalid state: {}" [novo]) w.
Proof.
  intros Hnot.
  assert (H : dict_mem novo ESTADOS = false).
  { destruct (dict_mem novo ESTADOS) eqn:E; [|reflexivity].
    apply dict_mem_In in E. contradiction. }
  eexists. split; [apply transitar_unknown; exact H|]. split; reflexivity.
Qed.

Lemma C2_unknown_target_rejected_witness :
  exists w',
    transitar "UNKNOWN" (mkWorld "GRAVANDO" true false [] []) = (Return false, w')
    /\ estado w' = "GRAVANDO"
    /\ w' = push_log (mkLog Error "Invalid state: {}" ["UNKNOWN"])
                     (mkWorld "GRAVANDO" true false [] []).
Proof.
  apply (C2_unknown_target_rejected (mkWorld "GRAVANDO" true false [] []) "UNKNOWN").
  simpl. intros H.
  repeat (destruct H as [H|H]; [discriminate H|]). exact H.
Defined.

Lemma last_cons_default {A} (l : list A) (a d d' : A) :
  last (a :: l) d = last (a :: l) d'.
Proof.
  revert a. induction l as [|b l IH]; intros a; [reflexivity|].
  change (last (b :: l) d = last (b :: l) d'). apply IH.
Qed.

Lemma transitar_seq_valid (targets : list string) :
  Forall (fun t => In t (map fst ESTADOS)) targets ->
  forall w,
    fst (transitar_seq targets w) = repeat true (List.length targets)
    /\ estado (snd (transitar_seq targets w)) = last targets (estado w).
Proof.
  induction 1 as [|t ts Ht Hts IH]; intros w; [split; reflexivity|].
  destruct (transitar_valid_estado t w Ht) as [w' [Hrun Hest]].
  cbn [transitar_seq]. rewrite Hrun.
  specialize (IH w'). destruct (transitar_seq ts w') as [bs w''].
  cbn [fst snd] in *. destruct IH as [IH1 IH2]. split.
  - cbn [List.length repeat]. rewrite IH1. reflexivity.
  - rewrite IH2, Hest. destruct ts as [|s ts]; [reflexivity|].
    change (last (s :: ts) t = last (s :: ts) (estado w)).
    apply last_cons_default.
Qed.

(** C3. For a sequence of targets all taken from the defined states, run
    from any store: every call returns true, and the state read back at the
    end is the last target.  For each such target S, [transitar S] twice
    returns true twice, the second call changes nothing at all, and the
    state is S. *)
Theorem C3_valid_sequence_succeeds (targets : list string) (w : World) :
  Forall (fun t => In t (map fst ESTADOS)) targets ->
  fst (transitar_seq targets w) = repeat true (List.length targets)
  /\ estado (snd (transitar_seq targets w)) = last targets (estado w)
  /\ (forall s, In s targets ->
        let w1 := snd (transitar s w) in
        transitar s w = (Return true, w1)
        /\ transitar s w1 = (Return true, w1)
        /\ estado w1 = s).
Proof.
  intros Hall.
  destruct (transitar_seq_valid targets Hall w) as [H1 H2].
  split; [exact H1|]. split; [exact H2|].
  intros s Hs w1. rewrite Forall_forall in Hall. specialize (Hall s Hs).
  destruct (transitar_valid_estado s w Hall) as [w' [Hrun Hest]].
  subst w1. rewrite Hrun. cbn [snd]. split; [reflexivity|]. split; [|exact Hest].
  apply dict_mem_In in Hall. destruct (dict_mem_get _ _ Hall) as [m Hm].
  rewrite (transitar_known _ _ _ Hm).
  unfold estado in Hest. rewrite Hest, String.eqb_refl. reflexivity.
Qed.

Lemma C3_valid_sequence_succeeds_witness :
  let targets := ["AGUARDANDO"; "GRAVANDO"; "GRAVANDO"; "DESCANSO"] in
  let w := mkWorld "DESCANSO" true false [] [] in
  fst (transitar_seq targets w) = repeat true (List.length targets)
  /\ estado (snd (transitar_seq targets w)) = last targets (estado w)
  /\ (forall s, In s targets ->
        let w1 := snd (transitar s w) in
        transitar s w = (Return true, w1)
        /\ transitar s w1 = (Return true, w1)
        /\ estado w1 = s).
Proof.
  apply (C3_valid_sequence_succeeds
           ["AGUARDANDO"; "GRAVANDO"; "GRAVANDO"; "DESCANSO"]
           (mkWorld "DESCANSO" true false [] [])).
  repeat constructor; simpl; tauto.
Defined.

End StateMachine.

(** ** The orchestrator *)

Section Orchestrator.
Import MaquinaEstadosNero NeroAssistant.

Lemma transitions_since (l' l : list LogEntry) (new : list (string * string)) :
  transitions_rev l' = (rev new ++ transitions_rev l)%list ->
  transitions l' = (transitions l ++ new)%list.
Proof.
  unfold transitions. intros ->. rewrite rev_app_distr, rev_involutive. reflexivity.
Qed.

Lemma pair_of_fst_snd {A B} (p : A * B) (a : A) :
  fst p = a -> p = (a, snd p).
Proof. destruct p. cbn. intros ->. reflexivity. Qed.

(** [run_body] is [run_head] followed by [after_gravando]. *)
Lemma run_body_split (env : TurnEnv) (w w1 : World) (t : string) :
  run_head env w = (Return (Some t), w1) ->
  run_body env w = after_gravando env t w1.
Proof.
  unfold run_head, run_body, after_gravando, bind.
  destruct (estado_descanso env w) as [[ok|e] w0]; [|discriminate].
  destruct ok; cbn [negb]; [|discriminate].
  destruct (estado_aguardando w0) as [[ok|e] w0']; [|discriminate].
  destruct ok; cbn [negb]; [|discriminate].
  destruct (estado_gravando env w0') as [[t'|e] w2]; [|discriminate].
  unfold ret. intros H. injection H as -> ->. reflexivity.
Qed.

Lemma turn_transcript_head (env : TurnEnv) (w : World) (t : string) :
  turn_transcript env w = Some t ->
  exists w1, run_head env w = (Return (Some t), w1).
Proof.
  unfold turn_transcript. destruct (run_head env w) as [[r|e] w1]; [|discriminate].
  intros ->. exists w1. reflexivity.
Qed.

(** What the first three phases leave behind when they hand a transcript
    over. *)
Lemma run_head_facts (env : TurnEnv) (w w1 : World) (t : string) :
  run_head env w = (Return (Some t), w1) ->
  estado_atual w1 = "GRAVANDO"
  /\ agent_calls w1 = agent_calls w
  /\ listener_starts w1 = listener_starts w
  /\ running w1 = (if sigint_wake env then false else running w)
  /\ same_dispatch_lines (log w) (log w1)
  /\ transitions (log w1) =
       (transitions (log w)
        ++ (if String.eqb "DESCANSO" (estado_atual w) then []
            else [(estado_atual w, "DESCANSO")])
        ++ [("DESCANSO", "AGUARDANDO"); ("AGUARDANDO", "GRAVANDO")])%list.
Proof.
  destruct env as [wk sw mic cap tr ag sd resp sig].
  destruct w as [e r f l c].
  unfold run_head, estado_descanso, bind.
  rewrite (transitar_known "DESCANSO" _ _ eq_refl).
  cbn [estado_atual sigint_wake running].
  destruct (String.eqb_spec "DESCANSO" e) as [<-|He];
    destruct wk as [[|] p|], sw, r, mic, cap as [|[wav| |]], tr as [[|a tx]|];
    intros H; vm_compute in H; try discriminate H; injection H as <- <-;
    (split; [reflexivity|]); (split; [reflexivity|]); (split; [reflexivity|]);
    (split; [reflexivity|]);
    (split; [repeat split; reflexivity|]);
    apply transitions_since; reflexivity.
Qed.

Ltac unfold_dispatch :=
  cbv [after_gravando estado_processando estado_respondendo
       wait_for_recording_complete _on_agent_response _signal_handler
       deliver_signal event_set event_clear response_in_time
       response_timeout_ms agent tts_signal sigint_dispatch resposta
       PyStr.is_empty].

(** Every way out of the Dispatching phase. *)
Lemma dispatch_exits (env : TurnEnv) (t : string) (w1 : World) :
  estado_atual w1 = "GRAVANDO" ->
  t <> "" ->
  fst (after_gravando env t w1) = Return Continue
  /\ estado_atual (snd (after_gravando env t w1)) = "DESCANSO"
  /\ agent_calls (snd (after_gravando env t w1)) = S (agent_calls w1)
  /\ listener_starts (snd (after_gravando env t w1)) = listener_starts w1
  /\ running (snd (after_gravando env t w1)) =
       (if sigint_dispatch env then false else running w1)
  /\ transitions (log (snd (after_gravando env t w1))) =
       (transitions (log w1)
        ++ ("GRAVANDO", "PROCESSANDO")
           :: (if response_in_time env
               then [("PROCESSANDO", "RESPONDENDO"); ("RESPONDENDO", "DESCANSO")]
               else [("PROCESSANDO", "DESCANSO")]))%list.
Proof.
  destruct env as [wk sw mic cap tr ag sd resp sig].
  destruct w1 as [e r f l c]. cbn [estado_atual]. intros -> Ht.
  destruct t as [|a t]; [contradiction|].
  unfold_dispatch.
  destruct ag as [[|]|], sd, sig as [z|];
    try (destruct (Z.leb_spec z 0), (Z.ltb_spec z 30000); try lia);
    (split; [reflexivity|]); (split; [reflexivity|]); (split; [reflexivity|]);
    (split; [reflexivity|]); (split; [reflexivity|]);
    apply transitions_since; reflexivity.
Qed.


(** The agent reported failure. *)
Lemma dispatch_agent_failed (env : TurnEnv) (t : string) (w1 : World) :
  estado_atual w1 = "GRAVANDO" ->
  t <> "" ->
  agent env = AgentReturns false ->
  logged line_agent_failed (log (snd (after_gravando env t w1)))
    = S (logged line_agent_failed (log w1))
  /\ logged line_timeout (log (snd (after_gravando env t w1)))
    = logged line_timeout (log w1)
  /\ logged line_exception (log (snd (after_gravando env t w1)))
    = logged line_exception (log w1)
  /\ logged line_turn_failed (log (snd (after_gravando env t w1)))
    = S (logged line_turn_failed (log w1)).
Proof.
  destruct env as [wk sw mic cap tr ag sd resp sig].
  destruct w1 as [e r f l c]. cbn [estado_atual agent].
  intros -> Ht ->.
  destruct t as [|a t]; [contradiction|].
  unfold_dispatch.
  destruct sd, sig as [z|];
    try destruct (Z.leb_spec z 0);
    repeat split; reflexivity.
Qed.

(** An empty transcript: no dispatch, straight back to DESCANSO. *)
Lemma empty_transcript_exit (env : TurnEnv) (w1 : World) :
  estado_atual w1 = "GRAVANDO" ->
  fst (after_gravando env "" w1) = Return Continue
  /\ estado_atual (snd (after_gravando env "" w1)) = "DESCANSO"
  /\ agent_calls (snd (after_gravando env "" w1)) = agent_calls w1.
Proof.
  destruct w1 as [e r f l c]. cbn [estado_atual]. intros ->.
  repeat split; reflexivity.
Qed.

(** C1, as the design document states it, fails: in the iteration where the
    agent reports failure the machine enters PROCESSANDO and goes back to
    DESCANSO without ever entering RESPONDENDO. *)
Lemma C1_counterexample :
  turn_transcript env_agent_fails fresh = Some "que horas sao"
  /\ In "PROCESSANDO" (states_entered (log (snd (run_body env_agent_fails fresh))))
  /\ ~ In "RESPONDENDO" (states_entered (log (snd (run_body env_agent_fails fresh))))
  /\ estado (snd (run_body env_agent_fails fresh)) = "DESCANSO".
Proof.
  split; [reflexivity|]. split; [vm_compute; tauto|]. split; [|reflexivity].
  vm_compute. intros H.
  repeat (destruct H as [H|H]; [discriminate H|]). exact H.
Qed.

(** C1, amended. An iteration that reaches the Dispatching phase (the
    Recording phase handed over a non-empty transcript) always runs to the
    end of the loop body without raising and leaves the machine in DESCANSO,
    whatever the agent answers (success, failure, or an exception) and
    whenever the completion flag is set.  After GRAVANDO -> PROCESSANDO the
    machine goes PROCESSANDO -> RESPONDENDO -> DESCANSO when the agent
    reported success and the flag was set before the deadline, and
    PROCESSANDO -> DESCANSO directly on every other way out. *)
Theorem C1_dispatch_always_reaches_idle (env : TurnEnv) (w : World) (t : string) :
  turn_transcript env w = Some t ->
  t <> "" ->
  exists w',
    run_body env w = (Return Continue, w')
    /\ estado w' = "DESCANSO"
    /\ transitions (log w') =
         ((transitions (log w)
           ++ (if String.eqb "DESCANSO" (estado_atual w) then []
               else [(estado_atual w, "DESCANSO")])
           ++ [("DESCANSO", "AGUARDANDO"); ("AGUARDANDO", "GRAVANDO")])
          ++ ("GRAVANDO", "PROCESSANDO")
             :: (if response_in_time env
                 then [("PROCESSANDO", "RESPONDENDO"); ("RESPONDENDO", "DESCANSO")]
                 else [("PROCESSANDO", "DESCANSO")]))%list.
Proof.
  intros Htr Hne.
  destruct (turn_transcript_head _ _ _ Htr) as [w1 Hh].
  destruct (run_head_facts _ _ _ _ Hh) as (He & _ & _ & _ & _ & Ht).
  destruct (dispatch_exits env t w1 He Hne) as (D1 & D2 & _ & _ & _ & D6).
  exists (snd (after_gravando env t w1)).
  rewrite (run_body_split _ _ _ _ Hh).
  split; [apply pair_of_fst_snd; exact D1|]. split; [exact D2|].
  rewrite D6, Ht. reflexivity.
Qed.

Lemma C1_dispatch_always_reaches_idle_witness :
  exists w',
    run_body env_answered fresh = (Return Continue, w')
    /\ estado w' = "DESCANSO"
    /\ transitions (log w') =
         ((transitions (log fresh)
           ++ (if String.eqb "DESCANSO" (estado_atual fresh) then []
               else [(estado_atual fresh, "DESCANSO")])
           ++ [("DESCANSO", "AGUARDANDO"); ("AGUARDANDO", "GRAVANDO")])
          ++ ("GRAVANDO", "PROCESSANDO")
             :: (if response_in_time env_answered
                 then [("PROCESSANDO", "RESPONDENDO"); ("RESPONDENDO", "DESCANSO")]
                 else [("PROCESSANDO", "DESCANSO")]))%list.
Proof.
  apply (C1_dispatch_always_reaches_idle env_answered fresh "que horas sao").
  - reflexivity.
  - discriminate.
Defined.

(** C4. In an iteration whose Recording phase hands over an empty
    transcript, [agent.processar_prompt] is not called: the number of
    dispatches recorded after the iteration is the number before it.  The
    loop body runs to its [continue] and the machine is in DESCANSO. *)
Theorem C4_empty_transcript_no_dispatch (env : TurnEnv) (w : World) :
  turn_transcript env w = Some "" ->
  exists w',
    run_body env w = (Return Continue, w')
    /\ agent_calls w' = agent_calls w
    /\ estado w' = "DESCANSO".
Proof.
  intros Htr.
  destruct (turn_transcript_head _ _ _ Htr) as [w1 Hh].
  destruct (run_head_facts _ _ _ _ Hh) as (He & Ha & _).
  destruct (empty_transcript_exit env w1 He) as (E1 & E2 & E3).
  exists (snd (after_gravando env "" w1)).
  rewrite (run_body_split _ _ _ _ Hh).
  split; [apply pair_of_fst_snd; exact E1|].
  split; [rewrite E3; exact Ha | exact E2].
Qed.

Lemma C4_empty_transcript_no_dispatch_witness :
  exists w',
    run_body env_empty_transcript fresh = (Return Continue, w')
    /\ agent_calls w' = agent_calls fresh
    /\ estado w' = "DESCANSO".
Proof.
  apply (C4_empty_transcript_no_dispatch env_empty_transcript fresh).
  reflexivity.
Defined.

(** C5. The Recording phase issues, as far as it gets, the calls
    [sr.Microphone()], [listen(source, timeout=600, phrase_time_limit=60)]
    and [transcrever_audio_file], in this order, and no other: it never
    starts the stop-word listener and never polls its queue.  It returns
    the transcription of the phrase [listen] heard, and the empty string
    when the [with] block could not be entered or [listen] timed out or
    raised.  So in the turn where the user says a phrase and pauses, the
    capture ends with that phrase: no StopWord event, no maximum duration,
    no device error. *)
Theorem C5_recording_never_starts_listener (env : TurnEnv) (w : World) :
  calls (snd (estado_gravando env w)) =
    ((if mic_ok env then
        match capture env with
        | EnterRaises => []
        | Listened (Heard wav) => [CTranscrever wav; CListen 600 60]
        | Listened _ => [CListen 600 60]
        end
      else []) ++ CMicrophone :: calls w)%list
  /\ fst (estado_gravando env w) =
       (if mic_ok env then
          Return match capture env, transcribe env with
                 | Listened (Heard _), Transcribed t => t
                 | _, _ => ""
                 end
        else Raise OtherException)
  /\ listener_starts (snd (estado_gravando env w)) = listener_starts w
  /\ fst (estado_gravando env_answered fresh) = Return "que horas sao"
  /\ calls (snd (estado_gravando env_answered fresh))
     = [CTranscrever "RIFF"; CListen 600 60; CMicrophone].
Proof.
  destruct env as [wk sw mic cap tr ag sd resp sig].
  destruct w as [e r f l c].
  unfold estado_gravando, bind.
  rewrite !(transitar_known "GRAVANDO" _ _ eq_refl).
  cbn [estado_atual mic_ok capture transcribe].
  destruct (String.eqb "GRAVANDO" e);
    destruct mic, cap as [|[wav| |]], tr as [[|a tx]|];
    repeat (split; [reflexivity|]); reflexivity.
Qed.

(** C6. Setting the completion flag never raises and is idempotent: a
    second [set] changes nothing.  The same holds through the callback
    [_on_agent_response]: after it ran twice the flag is what it was after
    it ran once, namely set.  With the flag set, the wait returns true at
    once, whatever the environment would have signalled later, and leaves
    the flag set. *)
Theorem C6_signal_idempotent (w : World) (env : TurnEnv) (t1 t2 : string) :
  let w1 := snd (event_set w) in
  let c1 := snd (_on_agent_response t1 w) in
  let c2 := snd (_on_agent_response t2 c1) in
  event_set w = (Return tt, w1)
  /\ event_set w1 = (Return tt, w1)
  /\ recording_complete w1 = true
  /\ fst (_on_agent_response t1 w) = Return tt
  /\ fst (_on_agent_response t2 c1) = Return tt
  /\ recording_complete c2 = recording_complete c1
  /\ recording_complete c1 = true
  /\ wait_for_recording_complete env response_timeout_ms w1
       = (Return true, push_call (CWaitFor response_timeout_ms) w1)
  /\ wait_for_recording_complete env response_timeout_ms c2
       = (Return true, push_call (CWaitFor response_timeout_ms) c2).
Proof.
  destruct w as [e r f l c]. cbv zeta. repeat split; reflexivity.
Qed.



(** C8. In an iteration that reaches the Dispatching phase, where the agent
    returns a result with [sucesso] false, the loop body does not raise: it
    runs to its [continue] with the machine in DESCANSO.  The turn is
    reported by the reasoning-failure line and by the failed-turn line, not
    by the timeout line nor by the line of an exception.  From a running
    loop, control is back at the loop test with the rest of the script; when
    no shutdown signal came in during the iteration the flag [running] is
    unchanged, so the next thing done is the wait for the wake word. *)
Theorem C8_agent_failure_is_not_raised (env : TurnEnv) (w : World) (t : string) :
  turn_transcript env w = Some t ->
  t <> "" ->
  agent env = AgentReturns false ->
  exists w',
    run_body env w = (Return Continue, w')
    /\ estado w' = "DESCANSO"
    /\ logged line_agent_failed (log w') = S (logged line_agent_failed (log w))
    /\ logged line_turn_failed (log w') = S (logged line_turn_failed (log w))
    /\ logged line_timeout (log w') = logged line_timeout (log w)
    /\ logged line_exception (log w') = logged line_exception (log w)
    /\ running w' =
         (if sigint_dispatch env then false
          else if sigint_wake env then false else running w)
    /\ (running w = true ->
        forall rest, run_loop (env :: rest) w = run_loop rest w').
Proof.
  intros Htr Hne Hag.
  destruct (turn_transcript_head _ _ _ Htr) as [w1 Hh].
  destruct (run_head_facts _ _ _ _ Hh) as (He & _ & _ & Hr & (L1 & L2 & L3 & L4) & _).
  destruct (dispatch_exits env t w1 He Hne) as (D1 & D2 & _ & _ & D5 & _).
  destruct (dispatch_agent_failed env t w1 He Hne Hag) as (F1 & F2 & F3 & F4).
  pose proof (run_body_split _ _ _ _ Hh) as Hs.
  apply pair_of_fst_snd in D1. rewrite <- Hs in D1 at 1.
  exists (snd (after_gravando env t w1)).
  split; [exact D1|]. split; [exact D2|].
  rewrite F1, F2, F3, F4, L1, L2, L3, L4, D5, Hr.
  repeat (split; [reflexivity|]).
  intros Hrun rest. cbn [run_loop]. rewrite Hrun, D1. reflexivity.
Qed.

Lemma C8_agent_failure_is_not_raised_witness :
  exists w',
    run_body env_agent_fails fresh = (Return Continue, w')
    /\ estado w' = "DESCANSO"
    /\ logged line_agent_failed (log w') = S (logged line_agent_failed (log fresh))
    /\ logged line_turn_failed (log w') = S (logged line_turn_failed (log fresh))
    /\ logged line_timeout (log w') = logged line_timeout (log fresh)
    /\ logged line_exception (log w') = logged line_exception (log fresh)
    /\ running w' =
         (if sigint_dispatch env_agent_fails then false
          else if sigint_wake env_agent_fails then false else running fresh)
    /\ (running fresh = true ->
        forall rest, run_loop (env_agent_fails :: rest) fresh = run_loop rest w').
Proof.
  apply (C8_agent_failure_is_not_raised env_agent_fails fresh "que horas sao").
  - reflexivity.
  - discriminate.
  - reflexivity.
Defined.

End Orchestrator.

(** ** The TTS summary *)

Section Resumo.
Import AgentHandler.

Lemma is_empty_length (s : string) :
  PyStr.is_empty s = true <-> s = "".
Proof. destruct s; cbn; split; intros H; try reflexivity; discriminate H. Qed.

Lemma slice_to_length (s : string) (n : nat) :
  String.length (PyStr.slice_to s n) = Nat.min n (String.length s).
Proof.
  unfold PyStr.slice_to. revert s.
  induction n as [|n IH]; intros [|c s]; cbn; try reflexivity.
  rewrite IH. reflexivity.
Qed.

Lemma slice_to_prefix (s : string) (n : nat) :
  prefix (PyStr.slice_to s n) s = true.
Proof.
  unfold PyStr.slice_to. revert s.
  induction n as [|n IH]; intros [|c s]; cbn; try reflexivity.
  destruct (ascii_dec c c) as [_|Hc]; [apply IH | contradiction].
Qed.

Lemma slice_to_slice_to (s : string) (n k : nat) :
  PyStr.slice_to (PyStr.slice_to s n) k = PyStr.slice_to s (Nat.min k n).
Proof.
  unfold PyStr.slice_to. revert s k.
  induction n as [|n IH]; intros [|c s] [|k]; cbn; try reflexivity.
  rewrite IH. reflexivity.
Qed.

Lemma length_append (s t : string) :
  String.length (s ++ t) = String.length s + String.length t.
Proof. induction s as [|c s IH]; cbn; [reflexivity | rewrite IH; reflexivity]. Qed.

Example rfind_last_space : PyStr.rfind "a b c" " " = 3%Z.
Proof. reflexivity. Qed.

Example rfind_absent : PyStr.rfind "abc" " " = (-1)%Z.
Proof. reflexivity. Qed.

Example resumo_short : _gerar_resumo_tts "Sao dez horas." = "Sao dez horas.".
Proof. reflexivity. Qed.

(** The summary of a long text: a slice of it, at most [max_chars] long,
    followed by the ellipsis. *)
Lemma resumo_long (texto : string) :
  max_chars < String.length texto ->
  exists k, k <= max_chars
    /\ _gerar_resumo_tts texto = PyStr.slice_to texto k ++ "...".
Proof.
  intros Hlen. unfold _gerar_resumo_tts.
  destruct texto as [|c s]; [cbn in Hlen; lia|]. cbn [PyStr.is_empty].
  set (texto := String c s) in *.
  destruct (Nat.leb_spec (String.length texto) max_chars) as [Hle|_]; [lia|].
  destruct (in_last_fifth (PyStr.rfind (PyStr.slice_to texto max_chars) " ")).
  - rewrite slice_to_slice_to.
    set (k := Nat.min _ max_chars).
    assert (Hk : k <= max_chars) by apply Nat.le_min_r.
    destruct (Nat.ltb_spec (String.length (PyStr.slice_to texto k))
                           (String.length texto)) as [_|Hge].
    + exists k. split; [exact Hk | reflexivity].
    + rewrite slice_to_length in Hge. lia.
  - destruct (Nat.ltb_spec (String.length (PyStr.slice_to texto max_chars))
                           (String.length texto)) as [_|Hge].
    + exists max_chars. split; [apply Nat.le_refl | reflexivity].
    + rewrite slice_to_length in Hge. lia.
Qed.

(** C10. The summary of the empty text is empty; a text of at most 200
    characters is returned as it is; the summary of a longer text has at
    most 203 characters and is a prefix of the text followed by ["..."]. *)
Theorem C10_resumo_tts_bounded (texto : string) :
  _gerar_resumo_tts "" = ""
  /\ (String.length texto <= 200 -> _gerar_resumo_tts texto = texto)
  /\ (200 < String.length texto ->
      String.length (_gerar_resumo_tts texto) <= 203
      /\ exists p, prefix p texto = true
                   /\ _gerar_resumo_tts texto = p ++ "...").
Proof.
  split; [reflexivity|]. split.
  - intros Hle. unfold _gerar_resumo_tts.
    destruct texto as [|c s]; [reflexivity|]. cbn [PyStr.is_empty].
    destruct (Nat.leb_spec (String.length (String c s)) max_chars) as [_|Hgt];
      [reflexivity|]. unfold max_chars in Hgt. lia.
  - intros Hgt. destruct (resumo_long texto Hgt) as [k [Hk Heq]].
    rewrite Heq. split.
    + rewrite length_append, slice_to_length. unfold max_chars in Hk.
      cbn [String.length]. lia.
    + exists (PyStr.slice_to texto k). split; [apply slice_to_prefix | reflexivity].
Qed.

End Resumo.

(** ** The stop-word listener *)

Section StopWordListener.
Import STTFraco.

Lemma llog_queue m tpl args l :
  _stop_word_queue (llog m tpl args l) = _stop_word_queue l.
Proof. reflexivity. Qed.

(** A pass whose callback does not raise: it returns having put one event,
    or continues having put none. *)
Lemma listen_pass_quiet (stop_words : list string) (a : Attempt) (l : Listener) :
  callback_raises a = false ->
  (fst (listen_pass stop_words a l) = PassReturn
   /\ exists w, enqueued l (snd (listen_pass stop_words a l)) [EvDetected w])
  \/ (fst (listen_pass stop_words a l) = PassContinue
      /\ enqueued l (snd (listen_pass stop_words a l)) []).
Proof.
  intros Hcb. unfold listen_pass, on_match, enqueued. rewrite Hcb.
  destruct (heard a) as [wav| |];
    [|right; split; [reflexivity | cbn; rewrite app_nil_r; reflexivity] ..].
  destruct (sphinx a) as [texto| | |].
  - destruct (first_match stop_words texto) as [w|].
    + left. split; [reflexivity|]. exists w. reflexivity.
    + right. split; [reflexivity|]. cbn. rewrite app_nil_r. reflexivity.
  - right. split; [reflexivity|]. cbn. rewrite app_nil_r. reflexivity.
  - destruct (google a) as [texto|].
    + destruct (first_match stop_words texto) as [w|].
      * left. split; [reflexivity|]. exists w. reflexivity.
      * right. split; [reflexivity|]. cbn. rewrite app_nil_r. reflexivity.
    + right. split; [reflexivity|]. cbn. rewrite app_nil_r. reflexivity.
  - right. split; [reflexivity|]. cbn. rewrite app_nil_r. reflexivity.
Qed.

(** With callbacks that return, the loop puts exactly one event when it
    exits and none while it is still listening. *)
Lemma listen_loop_quiet (stop_words : list string) (timeout_ms : Z)
  (script : list Attempt) :
  Forall (fun a => callback_raises a = false) script ->
  forall l : Listener,
    (fst (listen_loop stop_words timeout_ms script l) = Exited
     /\ exists e, enqueued l (snd (listen_loop stop_words timeout_ms script l)) [e])
    \/ (fst (listen_loop stop_words timeout_ms script l) = StillListening
        /\ enqueued l (snd (listen_loop stop_words timeout_ms script l)) []).
Proof.
  induction 1 as [|a rest Ha _ IH]; intros l.
  - right. split; [reflexivity|]. unfold enqueued. cbn. rewrite app_nil_r. reflexivity.
  - cbn [listen_loop]. destruct (elapsed_ms a >=? timeout_ms)%Z.
    + left. split; [reflexivity|]. exists (EvNotDetected "timeout"). reflexivity.
    + destruct (listen_pass_quiet stop_words a l Ha) as [[Hr [w Hq]]|[Hr Hq]];
        destruct (listen_pass stop_words a l) as [r l']; cbn [fst snd] in *; subst r.
      * left. split; [reflexivity|]. exists (EvDetected w). exact Hq.
      * unfold enqueued in *. cbn in Hq. rewrite app_nil_r in Hq.
        specialize (IH l'). rewrite Hq in IH. exact IH.
Qed.

(** One invocation with callbacks that return: the renewed queue holds one
    event when the thread has exited, none while it is still listening. *)
Lemma aguardar_quiet (stop_words : list string) (timeout_ms : Z)
  (setup_ok : bool) (script : list Attempt) (l : Listener) :
  Forall (fun a => callback_raises a = false) script ->
  (fst (aguardar_palavra_parada stop_words timeout_ms setup_ok script l) = Exited
   /\ exists e,
        _stop_word_queue
          (snd (aguardar_palavra_parada stop_words timeout_ms setup_ok script l))
        = [e])
  \/ (fst (aguardar_palavra_parada stop_words timeout_ms setup_ok script l)
        = StillListening
      /\ _stop_word_queue
           (snd (aguardar_palavra_parada stop_words timeout_ms setup_ok script l))
         = []).
Proof.
  intros Hq. unfold aguardar_palavra_parada, _listen_for_stop.
  destruct setup_ok.
  - match goal with
    | |- context [listen_loop ?sw ?to ?sc ?l0] =>
        destruct (listen_loop_quiet sw to sc Hq l0) as [[Hr [e He]]|[Hr He]];
        destruct (listen_loop sw to sc l0) as [r l'']
    end; cbn [fst snd] in *; subst r; unfold enqueued in He; cbn in He.
    + left. split; [reflexivity|]. exists e. exact He.
    + right. split; [reflexivity|]. exact He.
  - left. split; [reflexivity|]. exists (EvNotDetected "error"). reflexivity.
Qed.

(** The consumer's side: an event on the queue is handed over by one poll
    and no later one; polls of an empty queue return [None]. *)
Lemma poll_empty (n : nat) (l : Listener) :
  _stop_word_queue l = [] ->
  poll_n n l = (repeat None n, l).
Proof.
  intros Hq. induction n as [|n IH]; [reflexivity|].
  cbn [poll_n]. unfold verificar_palavra_parada_detectada. rewrite Hq, IH.
  reflexivity.
Qed.

Lemma poll_single (n : nat) (l : Listener) (e : DetectionEvent) :
  _stop_word_queue l = [e] ->
  fst (poll_n (S n) l) = Some e :: repeat None n
  /\ _stop_word_queue (snd (poll_n (S n) l)) = [].
Proof.
  intros Hq.
  assert (E : poll_n (S n) l =
              (Some e :: repeat None n,
               mkListener (_stop_word_detected l) [] (callback_calls l)
                          (listener_log l))).
  { cbn [poll_n]. unfold verificar_palavra_parada_detectada. rewrite Hq.
    rewrite poll_empty by reflexivity. reflexivity. }
  rewrite E. split; reflexivity.
Qed.

(** In a thread that has no event loop the listener does not reach its
    loop: it exits at once with the one ["error"] event. *)
Lemma aguardar_without_loop (stop_words : list string) (timeout_ms : Z)
  (script : list Attempt) (l : Listener) :
  fst (aguardar_palavra_parada stop_words timeout_ms false script l) = Exited
  /\ _stop_word_queue
       (snd (aguardar_palavra_parada stop_words timeout_ms false script l))
     = [EvNotDetected "error"].
Proof. split; reflexivity. Qed.

(** Were the thread given an event loop and the caller's callback to
    raise, the loop would go on after the detection and put a second event
    at the deadline. *)
Lemma raising_callback_two_events :
  aguardar_palavra_parada ["NERO ENVIAR"; "ENVIAR"; "ENVIAR NERO"] 600000 true
    script_callback_raises idle_listener
  = (Exited, listener_after_callback_raises)
  /\ _stop_word_queue listener_after_callback_raises
     = [EvDetected "NERO ENVIAR"; EvNotDetected "timeout"].
Proof.
  repeat split; reflexivity.
Qed.

(** C9. One invocation of the stop-word listener puts at most one event on
    the renewed queue: exactly one when its thread has exited, none while it
    is still listening.  The consumer's polls hand that event over exactly
    once and answer [None] on every later poll.  This holds in the thread
    the program starts, which has no event loop (the listener then exits
    with the one ["error"] event), and, whatever the thread, whenever the
    caller's callback returns. *)
Theorem C9_at_most_one_event (stop_words : list string) (timeout_ms : Z)
  (setup_ok : bool) (script : list Attempt) (l : Listener) (n : nat) :
  setup_ok = false \/ Forall (fun a => callback_raises a = false) script ->
  let ended :=
    fst (aguardar_palavra_parada stop_words timeout_ms setup_ok script l) in
  let after :=
    snd (aguardar_palavra_parada stop_words timeout_ms setup_ok script l) in
  List.length (_stop_word_queue after) <= 1
  /\ (ended = Exited ->
      exists e, _stop_word_queue after = [e]
                /\ fst (poll_n (S n) after) = Some e :: repeat None n
                /\ _stop_word_queue (snd (poll_n (S n) after)) = [])
  /\ (ended = StillListening ->
      _stop_word_queue after = []
      /\ fst (poll_n n after) = repeat None n)
  /\ (setup_ok = false ->
      ended = Exited /\ _stop_word_queue after = [EvNotDetected "error"]).
Proof.
  intros Hcond ended after.
  assert (Hone :
    (ended = Exited /\ exists e, _stop_word_queue after = [e])
    \/ (ended = StillListening /\ _stop_word_queue after = [])).
  { destruct Hcond as [->|Hq].
    - left. destruct (aguardar_without_loop stop_words timeout_ms script l)
        as [Hr He].
      split; [exact Hr | exists (EvNotDetected "error"); exact He].
    - exact (aguardar_quiet stop_words timeout_ms setup_ok script l Hq). }
  split; [|split; [|split]].
  - destruct Hone as [[_ [e He]]|[_ He]]; rewrite He; cbn; lia.
  - intros Hr. destruct Hone as [[_ [e He]]|[Hr' _]].
    + exists e. split; [exact He|]. exact (poll_single n after e He).
    + rewrite Hr in Hr'. discriminate Hr'.
  - intros Hr. destruct Hone as [[Hr' _]|[_ He]].
    + rewrite Hr in Hr'. discriminate Hr'.
    + split; [exact He|]. rewrite (poll_empty n after He). reflexivity.
  - intros ->. exact (aguardar_without_loop stop_words timeout_ms script l).
Qed.

Lemma C9_at_most_one_event_witness :
  let ended :=
    fst (aguardar_palavra_parada NeroAssistant.stop_words 600000 false
           script_callback_raises idle_listener) in
  let after :=
    snd (aguardar_palavra_parada NeroAssistant.stop_words 600000 false
           script_callback_raises idle_listener) in
  List.length (_stop_word_queue after) <= 1
  /\ (ended = Exited ->
      exists e, _stop_word_queue after = [e]
                /\ fst (poll_n 3 after) = Some e :: repeat None 2
                /\ _stop_word_queue (snd (poll_n 3 after)) = [])
  /\ (ended = StillListening ->
      _stop_word_queue after = []
      /\ fst (poll_n 2 after) = repeat None 2)
  /\ (false = false ->
      ended = Exited /\ _stop_word_queue after = [EvNotDetected "error"]).
Proof.
  apply (C9_at_most_one_event NeroAssistant.stop_words 600000 false
           script_callback_raises idle_listener 2).
  left. reflexivity.
Defined.

End StopWordListener.

(** ** The main loop *)

Section MainLoop.
Import MaquinaEstadosNero NeroAssistant.

Lemma estado_aguardando_true (w : World) :
  fst (estado_aguardando w) = Return true.
Proof.
  unfold estado_aguardando, bind.
  rewrite (transitar_known "AGUARDANDO" _ _ eq_refl). reflexivity.
Qed.

(** When the first three phases hand nothing over, [run_body] ends as they
    do: with a [break], or with their exception. *)
Lemma run_body_stops_with_head (env : TurnEnv) (w w1 : World) :
  (run_head env w = (Return None, w1) -> run_body env w = (Return Break, w1))
  /\ (forall e, run_head env w = (Raise e, w1) -> run_body env w = (Raise e, w1)).
Proof.
  unfold run_head, run_body, bind.
  destruct (estado_descanso env w) as [[ok|e0] w0].
  - destruct ok; cbn [negb].
    + pose proof (estado_aguardando_true w0) as Ha.
      destruct (estado_aguardando w0) as [[ok|e1] w0']; cbn [fst] in Ha;
        [|discriminate Ha].
      injection Ha as ->. cbn [negb].
      destruct (estado_gravando env w0') as [[t|e2] w2]; unfold ret;
        split; try discriminate; intros e H; try discriminate H.
      injection H as <- <-. reflexivity.
    + unfold ret. split; [intros H; injection H as <-; reflexivity|].
      intros e H; discriminate H.
  - split; [discriminate|]. intros e H. injection H as <- <-. reflexivity.
Qed.

(** How the first three phases can end, besides handing a transcript over. *)
Lemma run_head_outcome (env : TurnEnv) (w : World) :
  match run_head env w with
  | (Return (Some _), _) => True
  | (Return None, w1) =>
      estado_atual w1 = "DESCANSO"
      /\ running w1 = false
      /\ wake_calls w1 = S (wake_calls w)
      /\ agent_calls w1 = agent_calls w
      /\ listen_calls w1 = listen_calls w
      /\ (exists p, wake env = WakeResult false p)
  | (Raise e, w1) =>
      e = OtherException
      /\ estado_atual w1 = "GRAVANDO"
      /\ agent_calls w1 = agent_calls w
      /\ mic_ok env = false
  end.
Proof.
  destruct env as [wk sw mic cap tr ag sd resp sig].
  destruct w as [e r f l c].
  unfold run_head, estado_descanso, bind.
  rewrite (transitar_known "DESCANSO" _ _ eq_refl).
  cbn [estado_atual mic_ok wake].
  destruct (String.eqb_spec "DESCANSO" e) as [<-|_];
    destruct wk as [[|] p|], sw, r, mic, cap as [|[wav| |]], tr as [[|a tx]|];
    vm_compute; try exact I;
    repeat (split; [reflexivity|]); first [reflexivity | eexists; reflexivity].
Qed.



Lemma run_body_outcome (env : TurnEnv) (w : World) :
  match run_body env w with
  | (Return _, w') => estado w' = "DESCANSO"
  | (Raise e, w') =>
      e = OtherException /\ mic_ok env = false /\ estado w' = "GRAVANDO"
  end.
Proof.
  pose proof (run_head_outcome env w) as Ho.
  destruct (run_head env w) as [[[t|]|e] w1] eqn:Hh.
  - rewrite (run_body_split _ _ _ _ Hh).
    destruct (run_head_facts _ _ _ _ Hh) as (He & _).
    destruct t as [|a t].
    + destruct (empty_transcript_exit env w1 He) as (E1 & E2 & _).
      rewrite (pair_of_fst_snd _ _ E1). exact E2.
    + assert (Hne : String a t <> "") by discriminate.
      destruct (dispatch_exits env (String a t) w1 He Hne) as (D1 & D2 & _).
      rewrite (pair_of_fst_snd _ _ D1). exact D2.
  - destruct Ho as (H1 & _).
    rewrite (proj1 (run_body_stops_with_head env w w1) Hh). exact H1.
  - destruct Ho as (H1 & H2 & _ & H4).
    rewrite (proj2 (run_body_stops_with_head env w w1) e Hh).
    repeat split; assumption.
Qed.

(** X1. However the collaborators answer, one pass through the loop body
    either returns with the machine in DESCANSO, or raises; it raises only
    when building the microphone object failed, and then the machine is
    left in GRAVANDO. *)
Theorem run_body_ends_idle_or_mic_failure (env : TurnEnv) (w : World) :
  match run_body env w with
  | (Return _, w') => estado w' = "DESCANSO"
  | (Raise e, w') =>
      e = OtherException /\ mic_ok env = false /\ estado w' = "GRAVANDO"
  end.
Proof.
  exact (run_body_outcome env w).
Qed.

(** X2. The loop keeps the machine in DESCANSO between iterations: started
    in DESCANSO, over any script of environments, it ends in DESCANSO when
    it ends without raising, and in GRAVANDO when it raises. *)
Theorem run_loop_idle_invariant (envs : list TurnEnv) (w : World) :
  estado w = "DESCANSO" ->
  match run_loop envs w with
  | (Return _, w') => estado w' = "DESCANSO"
  | (Raise _, w') => estado w' = "GRAVANDO"
  end.
Proof.
  revert w. induction envs as [|env rest IH]; intros w Hw.
  - cbn [run_loop]. destruct (running w); exact Hw.
  - cbn [run_loop]. destruct (running w); [|exact Hw].
    pose proof (run_body_outcome env w) as Hb.
    destruct (run_body env w) as [[[|]|e] w'].
    + apply IH. exact Hb.
    + exact Hb.
    + destruct Hb as (_ & _ & Hb). exact Hb.
Qed.

Lemma run_loop_idle_invariant_witness :
  match run_loop [env_agent_fails; env_answered] fresh with
  | (Return _, w') => estado w' = "DESCANSO"
  | (Raise _, w') => estado w' = "GRAVANDO"
  end.
Proof.
  apply (run_loop_idle_invariant [env_agent_fails; env_answered] fresh).
  reflexivity.
Defined.

Lemma run_cleans_up (envs : list TurnEnv) (w : World) :
  let w0 := snd (startup w) in
  let loop := run_loop envs w0 in
  run envs true w =
    (Return tt,
     mkWorld (estado_atual (snd loop)) (running (snd loop))
       (recording_complete (snd loop))
       (line_shutdown_complete
          :: mkLog Info "Shutting down NERO..." []
          :: (match fst loop with
              | Raise _ => [line_fatal]
              | Return _ => []
              end ++ log (snd loop))%list)
       (CClose :: calls (snd loop)))
  /\ fst (run envs false w) = Raise OtherException.
Proof.
  cbv zeta. unfold run, startup, try_finally, try_except, bind.
  destruct w as [e r f l c].
  cbv [print_banner cleanup logger call modify ret raise bind push_log push_call
       estado_atual running recording_complete log calls snd fst].
  match goal with
  | |- context [run_loop envs ?W] => destruct (run_loop envs W) as [[x|x] [e1 r1 f1 l1 c1]]
  end; split; reflexivity.
Qed.

(** X3. [run] does not let an exception of the loop out.  When closing the
    clients goes through it returns normally, whatever happened in the loop:
    the clean-up is called after the loop's last call and the shutdown line
    is logged last, on top of the loop's log, with the fatal line in between
    exactly when the loop raised.  When closing the clients raises, that
    exception leaves [run]. *)
Theorem run_always_cleans_up (envs : list TurnEnv) (w : World) :
  let w0 := snd (startup w) in
  let loop := run_loop envs w0 in
  run envs true w =
    (Return tt,
     mkWorld (estado_atual (snd loop)) (running (snd loop))
       (recording_complete (snd loop))
       (line_shutdown_complete
          :: mkLog Info "Shutting down NERO..." []
          :: (match fst loop with
              | Raise _ => [line_fatal]
              | Return _ => []
              end ++ log (snd loop))%list)
       (CClose :: calls (snd loop)))
  /\ fst (run envs false w) = Raise OtherException.
Proof. exact (run_cleans_up envs w). Qed.

(** X4. [main] refuses to start on a missing or placeholder key: it returns
    1 and builds no assistant.  With two usable keys, an assistant that
    builds and clients that close, it returns 0 for every script, also when
    the loop died on a fatal error. *)
Theorem main_exit_code (deepgram_api_key cartesia_api_key : string)
  (ctor_ok close_ok : bool) (envs : list TurnEnv) :
  fst (fst (main deepgram_api_key cartesia_api_key ctor_ok envs close_ok)) =
    (if key_invalid deepgram_api_key || key_invalid cartesia_api_key
        || negb ctor_ok || negb close_ok
     then 1%Z else 0%Z)
  /\ (key_invalid deepgram_api_key || key_invalid cartesia_api_key = true ->
      snd (main deepgram_api_key cartesia_api_key ctor_ok envs close_ok) = None).
Proof.
  unfold main.
  destruct (key_invalid deepgram_api_key); [split; reflexivity|].
  destruct (key_invalid cartesia_api_key); [split; reflexivity|].
  destruct ctor_ok; [|split; [reflexivity|discriminate]].
  split; [|discriminate].
  destruct (run_cleans_up envs novo_assistente) as [Hok Hraise].
  destruct close_ok.
  - cbv zeta in Hok. rewrite Hok. reflexivity.
  - destruct (run envs false novo_assistente) as [[u|e] w'];
      [discriminate Hraise | reflexivity].
Qed.

Ltac unfold_processando :=
  cbv [after_gravando estado_processando estado_respondendo
       wait_for_recording_complete _on_agent_response _signal_handler
       deliver_signal event_set event_clear response_in_time
       response_timeout_ms agent tts_signal sigint_dispatch resposta
       PyStr.is_empty recording_complete].


(** The agent reported success and the flag was set before the deadline. *)
Lemma dispatch_success (env : TurnEnv) (t : string) (w1 : World) :
  estado_atual w1 = "GRAVANDO" ->
  t <> "" ->
  response_in_time env = true ->
  recording_complete (snd (after_gravando env t w1)) = true
  /\ same_dispatch_lines (log w1) (log (snd (after_gravando env t w1)))
  /\ logged line_response_complete (log (snd (after_gravando env t w1)))
     = S (logged line_response_complete (log w1))
  /\ In (CProcessarPrompt t) (calls (snd (after_gravando env t w1)))
  /\ In (CFalar (resposta env) "ana") (calls (snd (after_gravando env t w1))).
Proof.
  destruct env as [wk sw mic cap tr ag sd resp sig].
  destruct w1 as [e r f l c]. cbn [estado_atual]. intros -> Ht.
  destruct t as [|a t]; [contradiction|].
  unfold response_in_time, response_timeout_ms. cbn [agent tts_signal].
  destruct ag as [[|]|]; try discriminate.
  destruct sig as [z|]; [|discriminate].
  intros Hz. unfold_processando. rewrite Hz.
  destruct sd; destruct (Z.leb_spec z 0);
    (split; [reflexivity|]);
    (split; [repeat split; reflexivity|]);
    (split; [reflexivity|]);
    split; vm_compute; tauto.
Qed.

(** X7. A successful turn: the transcript is dispatched to the agent, the
    callback speaks the response with the voice "ana" and sets the flag in
    time.  The loop body then runs through RESPONDENDO back to DESCANSO, logs
    the response-complete line once, and none of the four failure lines. *)
Theorem successful_turn (env : TurnEnv) (w : World) (t : string) :
  turn_transcript env w = Some t ->
  t <> "" ->
  response_in_time env = true ->
  exists w',
    run_body env w = (Return Continue, w')
    /\ estado w' = "DESCANSO"
    /\ recording_complete w' = true
    /\ agent_calls w' = S (agent_calls w)
    /\ In (CProcessarPrompt t) (calls w')
    /\ In (CFalar (resposta env) "ana") (calls w')
    /\ same_dispatch_lines (log w) (log w')
    /\ In "RESPONDENDO" (states_entered (log w')).
Proof.
  intros Htr Hne Hok.
  destruct (turn_transcript_head _ _ _ Htr) as [w1 Hh].
  destruct (run_head_facts _ _ _ _ Hh)
    as (He & Ha & _ & _ & (L1 & L2 & L3 & L4) & _).
  destruct (dispatch_exits env t w1 He Hne) as (D1 & D2 & D3 & _ & _ & D6).
  destruct (dispatch_success env t w1 He Hne Hok)
    as (S1 & (M1 & M2 & M3 & M4) & _ & S4 & S5).
  exists (snd (after_gravando env t w1)).
  rewrite (run_body_split _ _ _ _ Hh).
  split; [apply pair_of_fst_snd; exact D1|]. split; [exact D2|].
  split; [exact S1|]. split; [rewrite D3, Ha; reflexivity|].
  split; [exact S4|]. split; [exact S5|].
  split.
  - unfold same_dispatch_lines. rewrite M1, M2, M3, M4, L1, L2, L3, L4.
    repeat split; reflexivity.
  - unfold states_entered. rewrite D6, Hok, map_app. apply in_or_app. right.
    cbn. tauto.
Qed.

Lemma successful_turn_witness :
  exists w',
    run_body env_answered fresh = (Return Continue, w')
    /\ estado w' = "DESCANSO"
    /\ recording_complete w' = true
    /\ agent_calls w' = S (agent_calls fresh)
    /\ In (CProcessarPrompt "que horas sao") (calls w')
    /\ In (CFalar (resposta env_answered) "ana") (calls w')
    /\ same_dispatch_lines (log fresh) (log w')
    /\ In "RESPONDENDO" (states_entered (log w')).
Proof.
  apply (successful_turn env_answered fresh "que horas sao").
  - reflexivity.
  - discriminate.
  - reflexivity.
Defined.

(** X8. A shutdown signal that arrives while the agent is being awaited does
    not cut the turn short: the loop body still runs to its end with the
    machine in DESCANSO, and only then does the loop stop, without calling
    the wake-word detector again. *)
Theorem shutdown_during_dispatch (env : TurnEnv) (w : World) (t : string)
  (rest : list TurnEnv) :
  turn_transcript env w = Some t ->
  t <> "" ->
  sigint_dispatch env = true ->
  running w = true ->
  exists w',
    run_body env w = (Return Continue, w')
    /\ run_loop (env :: rest) w = (Return Stopped, w')
    /\ estado w' = "DESCANSO"
    /\ running w' = false
    /\ agent_calls w' = S (agent_calls w).
Proof.
  intros Htr Hne Hsig Hrun.
  destruct (turn_transcript_head _ _ _ Htr) as [w1 Hh].
  destruct (run_head_facts _ _ _ _ Hh) as (He & Ha & _).
  destruct (dispatch_exits env t w1 He Hne) as (D1 & D2 & D3 & _ & D5 & _).
  pose proof (run_body_split _ _ _ _ Hh) as Hs.
  apply pair_of_fst_snd in D1. rewrite <- Hs in D1 at 1.
  rewrite Hsig in D5.
  exists (snd (after_gravando env t w1)).
  split; [exact D1|]. split.
  - cbn [run_loop]. rewrite Hrun, D1.
    destruct rest; cbn [run_loop]; rewrite D5; reflexivity.
  - split; [exact D2|]. split; [exact D5|]. rewrite D3, Ha. reflexivity.
Qed.

Lemma shutdown_during_dispatch_witness :
  exists w',
    run_body env_shutdown fresh = (Return Continue, w')
    /\ run_loop (env_shutdown :: [env_answered]) fresh = (Return Stopped, w')
    /\ estado w' = "DESCANSO"
    /\ running w' = false
    /\ agent_calls w' = S (agent_calls fresh).
Proof.
  apply (shutdown_during_dispatch env_shutdown fresh "que horas sao" [env_answered]).
  - reflexivity.
  - discriminate.
  - reflexivity.
  - reflexivity.
Defined.

End MainLoop.

(** ** Wake words, stop words and the two listeners *)

Section Listeners.
Import STTFraco.

Lemma first_match_sound (words : list string) (texto w : string) :
  first_match words texto = Some w ->
  In w words
  /\ PyStr.contains (PyStr.upper w) (PyStr.strip (PyStr.upper texto)) = true.
Proof. unfold first_match. intros H. apply find_some in H. exact H. Qed.

Lemma prefix_app_l (a b s : string) :
  prefix (a ++ b) s = true -> prefix a s = true.
Proof.
  revert s. induction a as [|c a IH]; intros s H; [destruct s; reflexivity|].
  destruct s as [|c' s]; cbn in *; [discriminate|].
  destruct (ascii_dec c c'); [apply IH; exact H | discriminate].
Qed.

Lemma contains_app_l (a b s : string) :
  PyStr.contains (a ++ b) s = true -> PyStr.contains a s = true.
Proof.
  induction s as [|c s IH]; cbn [PyStr.contains]; intros H.
  - apply orb_true_iff in H. destruct H as [H|H]; [|discriminate].
    apply prefix_app_l in H. rewrite H. reflexivity.
  - apply orb_true_iff in H. apply orb_true_iff. destruct H as [H|H].
    + left. apply prefix_app_l in H. exact H.
    + right. apply IH. exact H.
Qed.

Lemma contains_suffix (a b s : string) :
  PyStr.contains (a ++ b) s = true -> PyStr.contains b s = true.
Proof.
  revert s. induction a as [|c a IH]; intros s H; [exact H|].
  induction s as [|c' s IHs]; cbn [PyStr.contains] in H.
  - cbn in H. discriminate H.
  - apply orb_true_iff in H. destruct H as [H|H].
    + cbn [append prefix] in H. destruct (ascii_dec c c'); [|discriminate].
      cbn [PyStr.contains]. apply orb_true_iff. right. apply IH.
      destruct s; cbn [PyStr.contains]; rewrite H; reflexivity.
    + cbn [PyStr.contains]. apply orb_true_iff. right. apply IHs. exact H.
Qed.

(** X9. With the assistant's wake words, a recognised text triggers the wake
    exactly when it contains NERO, in any letter case and anywhere in the
    text, also inside a longer word. *)
Theorem wake_on_any_nero (texto : string) :
  (exists w, first_match NeroAssistant.wake_words texto = Some w)
  <-> PyStr.contains "NERO" (PyStr.strip (PyStr.upper texto)) = true.
Proof.
  unfold first_match, NeroAssistant.wake_words. cbn [find].
  change (PyStr.upper "NERO OUVIR") with ("NERO" ++ " OUVIR").
  change (PyStr.upper "NERO") with "NERO".
  set (heard := PyStr.strip (PyStr.upper texto)).
  destruct (PyStr.contains ("NERO" ++ " OUVIR") heard) eqn:E1.
  - apply contains_app_l in E1. rewrite E1. split; [reflexivity | eauto].
  - destruct (PyStr.contains "NERO" heard); split; eauto.
    + intros [w H]; discriminate H.
    + discriminate.
Qed.

(** X10. With the assistant's stop words, the word reported for a recognised
    text is NERO ENVIAR or ENVIAR, never ENVIAR NERO: a text that contains
    the third phrase contains the second, which is tried first.  A text
    triggers the stop exactly when it contains ENVIAR. *)
Theorem stop_word_reported (texto : string) :
  match first_match NeroAssistant.stop_words texto with
  | Some w => w = "NERO ENVIAR" \/ w = "ENVIAR"
  | None => True
  end
  /\ ((exists w, first_match NeroAssistant.stop_words texto = Some w)
      <-> PyStr.contains "ENVIAR" (PyStr.strip (PyStr.upper texto)) = true).
Proof.
  unfold first_match, NeroAssistant.stop_words. cbn [find].
  change (PyStr.upper "NERO ENVIAR") with ("NERO " ++ "ENVIAR").
  change (PyStr.upper "ENVIAR") with "ENVIAR".
  change (PyStr.upper "ENVIAR NERO") with ("ENVIAR" ++ " NERO").
  set (heard := PyStr.strip (PyStr.upper texto)).
  destruct (PyStr.contains ("NERO " ++ "ENVIAR") heard) eqn:E1.
  - apply contains_suffix in E1. rewrite E1.
    split; [left; reflexivity|]. split; [reflexivity | eauto].
  - destruct (PyStr.contains "ENVIAR" heard) eqn:E2.
    + split; [right; reflexivity|]. split; [reflexivity | eauto].
    + destruct (PyStr.contains ("ENVIAR" ++ " NERO") heard) eqn:E3.
      * apply contains_app_l in E3. rewrite E3 in E2. discriminate E2.
      * split; [exact I|]. split; [intros [w H]; discriminate H | discriminate].
Qed.

(** The detection loop reports a detection only for an attempt that
    recognised one of the wake words, with that attempt's audio. *)
Lemma wake_loop_sound (wake_words : list string) (script : list WakeAttempt) :
  forall d : Detector,
    match fst (wake_loop wake_words script d) with
    | Some r =>
        if detected r then
          exists a texto wav,
            In a script
            /\ w_heard a = Heard wav
            /\ recognised a = Some texto
            /\ first_match wake_words texto = Some (palavra r)
            /\ audio_data r = Some wav
        else r = not_detected
    | None => True
    end.
Proof.
  induction script as [|a rest IH]; intros d; [exact I|].
  assert (Hrest : forall d',
    match fst (wake_loop wake_words rest d') with
    | Some r =>
        if detected r then
          exists a0 texto wav,
            In a0 (a :: rest)
            /\ w_heard a0 = Heard wav
            /\ recognised a0 = Some texto
            /\ first_match wake_words texto = Some (palavra r)
            /\ audio_data r = Some wav
        else r = not_detected
    | None => True
    end).
  { intros d'. specialize (IH d').
    destruct (fst (wake_loop wake_words rest d')) as [r|]; [|exact I].
    destruct (detected r); [|exact IH].
    destruct IH as (a0 & texto & wav & Hin & H). exists a0, texto, wav.
    split; [right; exact Hin | exact H]. }
  cbn [wake_loop]. unfold recognised in *.
  destruct (w_heard a) as [wav| |] eqn:Hh; [|reflexivity|apply Hrest].
  destruct (w_sphinx a) as [texto| | |] eqn:Hs; try apply Hrest.
  - destruct (first_match wake_words texto) as [w|] eqn:Hm; [|apply Hrest].
    cbn. exists a, texto, wav. rewrite Hh, Hs. repeat split; auto.
  - destruct (w_google a) as [texto|] eqn:Hg; [|apply Hrest].
    destruct (first_match wake_words texto) as [w|] eqn:Hm; [|apply Hrest].
    cbn. exists a, texto, wav. rewrite Hh, Hs, Hg. repeat split; auto.
Qed.

Lemma detectar_names_wake_word (wake_words : list string) (env : WakeEnv)
  (d : Detector) (r : WakeDict) :
  fst (detectar_wake_word wake_words env d) = Some r ->
  detected r = true ->
  In (palavra r) wake_words.
Proof.
  unfold detectar_wake_word.
  destruct (_get_microphone _ _) as [[u|e] d1]; cbn [fst].
  - match goal with
    | |- context [wake_loop wake_words (attempts env) ?D] =>
        pose proof (wake_loop_sound wake_words (attempts env) D) as H
    end.
    intros Hr Hd. rewrite Hr in H. rewrite Hd in H.
    destruct H as (a & texto & wav & _ & _ & _ & Hm & _).
    apply first_match_sound in Hm. apply Hm.
  - intros Hr Hd. injection Hr as <-. discriminate Hd.
Qed.

(** X11. What [detectar_wake_word] returns is either a detection or the
    untouched not-detected dict.  A detection names one of the wake words
    asked for, found in the text one of the attempts recognised, and carries
    the audio of that attempt; a failure to get the microphone is answered
    with the not-detected dict, not with an exception. *)
Theorem detectar_wake_word_sound (wake_words : list string) (env : WakeEnv)
  (d : Detector) :
  match fst (detectar_wake_word wake_words env d) with
  | Some r =>
      if detected r then
        In (palavra r) wake_words
        /\ exists a texto wav,
             In a (attempts env)
             /\ w_heard a = Heard wav
             /\ recognised a = Some texto
             /\ first_match wake_words texto = Some (palavra r)
             /\ audio_data r = Some wav
      else r = not_detected
  | None => True
  end
  /\ (microphone d = false -> mic_ctor_ok env = false ->
      fst (detectar_wake_word wake_words env d) = Some not_detected).
Proof.
  split.
  - unfold detectar_wake_word.
    destruct (_get_microphone _ _) as [[u|e] d1]; [|reflexivity].
    match goal with
    | |- context [wake_loop wake_words (attempts env) ?D] =>
        pose proof (wake_loop_sound wake_words (attempts env) D) as H;
        destruct (fst (wake_loop wake_words (attempts env) D)) as [r|]
    end; [|exact I].
    destruct (detected r); [|exact H].
    split; [|exact H].
    destruct H as (a & texto & wav & _ & _ & _ & Hm & _).
    apply first_match_sound in Hm. apply Hm.
  - intros Hmic Hctor. unfold detectar_wake_word, _get_microphone.
    cbn [microphone dlog]. rewrite Hmic, Hctor. reflexivity.
Qed.

(** X12. The microphone object is built once: when it is already there, the
    detection does not depend on whether building one would succeed. *)
Theorem microphone_is_cached (wake_words : list string) (ok1 ok2 : bool)
  (cal : option Z) (script : list WakeAttempt) (d : Detector) :
  microphone d = true ->
  detectar_wake_word wake_words (mkWakeEnv ok1 cal script) d
  = detectar_wake_word wake_words (mkWakeEnv ok2 cal script) d
  /\ microphone (snd (detectar_wake_word wake_words (mkWakeEnv ok1 cal script) d))
     = true.
Proof.
  intros Hmic. destruct d as [m th lg]. cbn in Hmic. subst m.
  unfold detectar_wake_word, calibrate_ambient_noise, _get_microphone.
  cbn [microphone dlog mic_ctor_ok calibration attempts energy_threshold
       detector_log].
  split; [reflexivity|].
  assert (Hloop : forall sc d0, microphone d0 = true ->
            microphone (snd (wake_loop wake_words sc d0)) = true).
  { induction sc as [|a rest IH]; intros d0 H0; [exact H0|].
    cbn [wake_loop].
    destruct (w_heard a); [|exact H0|apply IH; exact H0].
    destruct (w_sphinx a) as [texto| | |]; try (apply IH; exact H0).
    - destruct (first_match wake_words texto); [exact H0|apply IH; exact H0].
    - destruct (w_google a) as [texto|]; [|apply IH; exact H0].
      destruct (first_match wake_words texto); [exact H0|apply IH; exact H0]. }
  apply Hloop. destruct (th =? 300)%Z; [|reflexivity].
  destruct cal; reflexivity.
Qed.

Lemma microphone_is_cached_witness :
  let d := mkDetector true 412 [] in
  let script := [mkWakeAttempt (Heard "RIFF") (SphinxText "nero ouvir") GoogleRaises] in
  detectar_wake_word ["NERO OUVIR"; "NERO"] (mkWakeEnv false None script) d
  = detectar_wake_word ["NERO OUVIR"; "NERO"] (mkWakeEnv true None script) d
  /\ microphone (snd (detectar_wake_word ["NERO OUVIR"; "NERO"]
                        (mkWakeEnv false None script) d))
     = true.
Proof.
  apply (microphone_is_cached ["NERO OUVIR"; "NERO"] false true None
           [mkWakeAttempt (Heard "RIFF") (SphinxText "nero ouvir") GoogleRaises]
           (mkDetector true 412 [])).
  reflexivity.
Defined.

(** What the stop-word loop does depends on the queue and on nothing else
    of the listener: not on the flag, not on the log. *)
Lemma listen_loop_ignores_flag (stop_words : list string) (timeout_ms : Z)
  (script : list Attempt) :
  forall l1 l2 : Listener,
    _stop_word_queue l1 = _stop_word_queue l2 ->
    callback_calls l1 = callback_calls l2 ->
    fst (listen_loop stop_words timeout_ms script l1)
    = fst (listen_loop stop_words timeout_ms script l2)
    /\ _stop_word_queue (snd (listen_loop stop_words timeout_ms script l1))
       = _stop_word_queue (snd (listen_loop stop_words timeout_ms script l2))
    /\ callback_calls (snd (listen_loop stop_words timeout_ms script l1))
       = callback_calls (snd (listen_loop stop_words timeout_ms script l2)).
Proof.
  induction script as [|a rest IH]; intros l1 l2 Hq Hc; [repeat split; assumption|].
  cbn [listen_loop]. destruct (elapsed_ms a >=? timeout_ms)%Z.
  - cbn. rewrite Hq, Hc. repeat split; reflexivity.
  - assert (Hpass :
      fst (listen_pass stop_words a l1) = fst (listen_pass stop_words a l2)
      /\ _stop_word_queue (snd (listen_pass stop_words a l1))
         = _stop_word_queue (snd (listen_pass stop_words a l2))
      /\ callback_calls (snd (listen_pass stop_words a l1))
         = callback_calls (snd (listen_pass stop_words a l2))).
    { unfold listen_pass, on_match.
      destruct (heard a); [|repeat split; assumption ..].
      destruct (sphinx a) as [texto| | |]; try (repeat split; assumption).
      - destruct (first_match stop_words texto); [|repeat split; assumption].
        destruct (callback_raises a); cbn; rewrite Hq, Hc; repeat split; reflexivity.
      - destruct (google a) as [texto|]; [|repeat split; assumption].
        destruct (first_match stop_words texto); [|repeat split; assumption].
        destruct (callback_raises a); cbn; rewrite Hq, Hc; repeat split; reflexivity. }
    destruct (listen_pass stop_words a l1) as [r1 l1'],
             (listen_pass stop_words a l2) as [r2 l2'].
    cbn [fst snd] in Hpass. destruct Hpass as (Hr & Hq' & Hc'). subst r2.
    destruct r1; [repeat split; assumption|]. apply IH; assumption.
Qed.

(** X13. [stop_detection] does not stop a listener: the loop never reads the
    flag it sets, so its run (how it ends, what it queues, which callbacks
    it calls) is the same with the flag raised as without. *)
Theorem stop_detection_has_no_effect (stop_words : list string) (timeout_ms : Z)
  (script : list Attempt) (l : Listener) :
  _stop_word_detected (stop_detection l) = true
  /\ fst (listen_loop stop_words timeout_ms script (stop_detection l))
     = fst (listen_loop stop_words timeout_ms script l)
  /\ _stop_word_queue (snd (listen_loop stop_words timeout_ms script (stop_detection l)))
     = _stop_word_queue (snd (listen_loop stop_words timeout_ms script l))
  /\ callback_calls (snd (listen_loop stop_words timeout_ms script (stop_detection l)))
     = callback_calls (snd (listen_loop stop_words timeout_ms script l)).
Proof.
  split; [reflexivity|].
  apply listen_loop_ignores_flag; reflexivity.
Qed.

(** X14. One invocation of the stop-word listener whose callback returns
    normally leaves exactly one event in the renewed queue when its thread
    has exited, and none while it is still listening, whatever was left in
    the queue before. *)
Theorem one_event_when_callbacks_return (stop_words : list string)
  (timeout_ms : Z) (setup_ok : bool) (script : list Attempt) (l : Listener) :
  Forall (fun a => callback_raises a = false) script ->
  match fst (aguardar_palavra_parada stop_words timeout_ms setup_ok script l) with
  | Exited =>
      exists e,
        _stop_word_queue
          (snd (aguardar_palavra_parada stop_words timeout_ms setup_ok script l))
        = [e]
  | StillListening =>
      _stop_word_queue
        (snd (aguardar_palavra_parada stop_words timeout_ms setup_ok script l))
      = []
  end.
Proof.
  intros Hq.
  destruct (aguardar_quiet stop_words timeout_ms setup_ok script l Hq)
    as [[Hr He]|[Hr He]]; rewrite Hr; exact He.
Qed.

Lemma one_event_when_callbacks_return_witness :
  match fst (aguardar_palavra_parada NeroAssistant.stop_words 600000 true
               script_stop_heard idle_listener) with
  | Exited =>
      exists e,
        _stop_word_queue
          (snd (aguardar_palavra_parada NeroAssistant.stop_words 600000 true
                  script_stop_heard idle_listener))
        = [e]
  | StillListening =>
      _stop_word_queue
        (snd (aguardar_palavra_parada NeroAssistant.stop_words 600000 true
                script_stop_heard idle_listener))
      = []
  end.
Proof.
  apply (one_event_when_callbacks_return NeroAssistant.stop_words 600000 true
           script_stop_heard idle_listener).
  repeat constructor.
Defined.

Lemma poll_n_fifo (q : list DetectionEvent) :
  forall (n : nat) (l : Listener),
    _stop_word_queue l = q ->
    fst (poll_n (List.length q + n) l) = (map Some q ++ repeat None n)%list
    /\ _stop_word_queue (snd (poll_n (List.length q + n) l)) = [].
Proof.
  induction q as [|e q IH]; intros n l Hq.
  - cbn [List.length Nat.add map app]. rewrite (poll_empty n l Hq). split; [reflexivity|exact Hq].
  - cbn [List.length Nat.add poll_n]. unfold verificar_palavra_parada_detectada.
    rewrite Hq.
    specialize (IH n (mkListener (_stop_word_detected l) q (callback_calls l)
                                 (listener_log l)) eq_refl).
    destruct (poll_n (List.length q + n) _) as [rs l''].
    cbn [fst snd] in *. destruct IH as [IH1 IH2]. rewrite IH1. split; [reflexivity|exact IH2].
Qed.

(** X15. The consumer's polls hand the queued events over in the order they
    were put, each exactly once, and answer [None] from then on; the queue
    is left empty. *)
Theorem polls_deliver_in_order_once (l : Listener) (n : nat) :
  fst (poll_n (List.length (_stop_word_queue l) + n) l)
  = (map Some (_stop_word_queue l) ++ repeat None n)%list
  /\ _stop_word_queue (snd (poll_n (List.length (_stop_word_queue l) + n) l)) = [].
Proof. apply poll_n_fifo. reflexivity. Qed.

End Listeners.

(** ** The agent call and its Stop hook *)

Section Agent.
Import AgentHandler.

(** The summary is never longer than 203 characters, and is empty only for
    the empty text. *)
Lemma resumo_bounds (texto : string) :
  String.length (_gerar_resumo_tts texto) <= 203
  /\ (_gerar_resumo_tts texto = "" -> texto = "").
Proof.
  destruct (Nat.le_gt_cases (String.length texto) max_chars) as [Hle|Hgt].
  - assert (E : _gerar_resumo_tts texto = texto).
    { unfold _gerar_resumo_tts. destruct texto as [|c s]; [reflexivity|].
      cbn [PyStr.is_empty].
      destruct (Nat.leb_spec (String.length (String c s)) max_chars); [reflexivity|lia]. }
    rewrite E. unfold max_chars in Hle. split; [lia | auto].
  - destruct (resumo_long texto Hgt) as [k [Hk E]]. rewrite E. split.
    + rewrite length_append, slice_to_length. unfold max_chars in Hk. cbn [String.length]. lia.
    + intros H. apply (f_equal String.length) in H.
      rewrite length_append in H. cbn [String.length] in H. lia.
Qed.

Lemma on_stop_parts (context : option (list Message)) (h : Handler) :
  (spoken (_on_stop context h) = spoken h
   \/ exists texto,
        spoken (_on_stop context h) = texto :: spoken h
        /\ _tts_callback h = true
        /\ texto = _gerar_resumo_tts (final_response context)
        /\ texto <> ""
        /\ String.length texto <= 203)
  /\ _tts_callback (_on_stop context h) = _tts_callback h
  /\ queries (_on_stop context h) = queries h.
Proof.
  unfold _on_stop. cbn [hlogger _tts_callback spoken queries].
  destruct (_tts_callback h) eqn:Hcb; cbn [andb]; [|repeat split; auto].
  pose proof (proj1 (resumo_bounds (final_response context))) as Hb.
  destruct (_gerar_resumo_tts (final_response context)) as [|c s];
    cbn [PyStr.is_empty negb]; [repeat split; auto|].
  split; [|split; reflexivity].
  right. exists (String c s).
  split; [reflexivity|]. split; [reflexivity|]. split; [reflexivity|].
  split; [discriminate | exact Hb].
Qed.

(** X16. One firing of the Stop hook schedules the TTS callback at most
    once, and only when a callback is registered; the text it hands over is
    never empty and never longer than 203 characters.  Nothing else of the
    handler changes but the log. *)
Theorem stop_hook_speaks_bounded (context : option (list Message)) (h : Handler) :
  (spoken (_on_stop context h) = spoken h
   \/ exists texto,
        spoken (_on_stop context h) = texto :: spoken h
        /\ _tts_callback h = true
        /\ texto = _gerar_resumo_tts (final_response context)
        /\ texto <> ""
        /\ String.length texto <= 203)
  /\ _tts_callback (_on_stop context h) = _tts_callback h
  /\ queries (_on_stop context h) = queries h.
Proof. exact (on_stop_parts context h). Qed.

Lemma is_empty_true (s : string) : PyStr.is_empty s = true -> s = "".
Proof. destruct s; [reflexivity | discriminate]. Qed.

(** X17. A prompt that is empty or white space only is answered with the
    failure dict without the SDK being asked: no query is sent, no callback
    scheduled, whatever the SDK would have done. *)
Theorem blank_prompt_not_sent (transcricao : string) (sdk : SdkOutcome)
  (h : Handler) :
  PyStr.strip transcricao = "" ->
  fst (processar_prompt transcricao sdk h) = mkResultado "" [] CustoZero false
  /\ queries (snd (processar_prompt transcricao sdk h)) = queries h
  /\ spoken (snd (processar_prompt transcricao sdk h)) = spoken h.
Proof.
  intros Hblank. unfold processar_prompt. rewrite Hblank.
  cbn [PyStr.is_empty]. rewrite orb_true_r. repeat split; reflexivity.
Qed.

Lemma blank_prompt_not_sent_witness :
  let sdk := SdkResponds None (mkResponse None (Some "ok") "ok") in
  fst (processar_prompt "  " sdk idle_handler) = mkResultado "" [] CustoZero false
  /\ queries (snd (processar_prompt "  " sdk idle_handler)) = queries idle_handler
  /\ spoken (snd (processar_prompt "  " sdk idle_handler)) = spoken idle_handler.
Proof.
  apply (blank_prompt_not_sent "  "
           (SdkResponds None (mkResponse None (Some "ok") "ok")) idle_handler).
  reflexivity.
Defined.

Lemma parse_message_parts (f : list (string * string)) (t : string)
  (h : Handler) (m : Message) :
  fst (fst (parse_message (f, t, h) m))
  = (f ++ match tool_use m with
          | Some (n, i) => [(n, PyStr.slice_to i 100)]
          | None => []
          end)%list
  /\ snd (fst (parse_message (f, t, h) m))
     = (if has_answer m
        then match content m with Some c => c | None => t end
        else t)
  /\ spoken (snd (parse_message (f, t, h) m)) = spoken h
  /\ queries (snd (parse_message (f, t, h) m)) = queries h
  /\ _tts_callback (snd (parse_message (f, t, h) m)) = _tts_callback h.
Proof.
  unfold parse_message, has_answer.
  destruct (tool_use m) as [[n i]|], (is_assistant m), (content m);
    cbn; rewrite ?app_nil_r; repeat split; reflexivity.
Qed.

(** The loop over the messages, component by component. *)
Lemma parse_fold (msgs : list Message) :
  forall (f : list (string * string)) (t : string) (h : Handler),
    fst (fst (fold_left parse_message msgs (f, t, h)))
    = (f ++ flat_map (fun m => match tool_use m with
                               | Some (n, i) => [(n, PyStr.slice_to i 100)]
                               | None => []
                               end) msgs)%list
    /\ snd (fst (fold_left parse_message msgs (f, t, h)))
       = (if existsb has_answer msgs then scan_assistant (rev msgs) else t)
    /\ spoken (snd (fold_left parse_message msgs (f, t, h))) = spoken h
    /\ queries (snd (fold_left parse_message msgs (f, t, h))) = queries h.
Proof.
  induction msgs as [|m msgs IH] using rev_ind; intros f t h.
  - cbn. rewrite app_nil_r. repeat split; reflexivity.
  - rewrite fold_left_app. cbn [fold_left].
    destruct (IH f t h) as (I1 & I2 & I3 & I4).
    destruct (fold_left parse_message msgs (f, t, h)) as [[f' t'] h'].
    cbn [fst snd] in I1, I2, I3, I4.
    destruct (parse_message_parts f' t' h' m) as (P1 & P2 & P3 & P4 & _).
    rewrite P1, P2, P3, P4, I1, I2, I3, I4.
    rewrite flat_map_app, existsb_app, rev_unit. cbn [flat_map existsb scan_assistant].
    rewrite app_nil_r, orb_false_r, app_assoc.
    split; [reflexivity|]. split; [|split; reflexivity].
    unfold has_answer.
    destruct (is_assistant m), (content m); cbn [andb];
      rewrite ?orb_true_r, ?orb_false_r; reflexivity.
Qed.

Lemma scan_without_answer (msgs : list Message) :
  existsb has_answer msgs = false -> scan_assistant (rev msgs) = "".
Proof.
  induction msgs as [|m msgs IH] using rev_ind; [reflexivity|].
  rewrite existsb_app, rev_unit. cbn [existsb scan_assistant].
  rewrite orb_false_r. intros H. apply orb_false_iff in H. destruct H as [H1 H2].
  unfold has_answer in H2.
  destruct (is_assistant m), (content m); cbn in H2; try discriminate; auto.
Qed.

(** The text the loop of [processar_prompt] ends with is the text the Stop
    hook finds in the same messages. *)
Lemma parse_text_is_final_response (msgs : list Message)
  (f : list (string * string)) (h : Handler) :
  snd (fst (fold_left parse_message msgs (f, "", h)))
  = final_response (Some msgs).
Proof.
  destruct (parse_fold msgs f "" h) as (_ & H & _). rewrite H.
  unfold final_response.
  destruct (existsb has_answer msgs) eqn:E; [reflexivity|].
  symmetry. apply scan_without_answer. exact E.
Qed.

(** What [processar_prompt] returns when the SDK answers a prompt that is
    not blank. *)
Lemma processar_prompt_answer (t : string) (hook : option (option (list Message)))
  (r : Response) (h : Handler) :
  is_blank t = false ->
  let final := final_response (Some (messages_of r)) in
  let texto1 := if PyStr.is_empty final
                then match result r with Some x => x | None => final end
                else final in
  let texto := if PyStr.is_empty texto1 then as_str r else texto1 in
  let h1 := match hook with
            | Some context =>
                _on_stop context
                  (mkHandler (_tts_callback h) (spoken h) (t :: queries h) (hlog h))
            | None => mkHandler (_tts_callback h) (spoken h) (t :: queries h) (hlog h)
            end in
  fst (processar_prompt t (SdkResponds hook r) h)
  = mkResultado texto
      (flat_map (fun m => match tool_use m with
                          | Some (n, i) => [(n, PyStr.slice_to i 100)]
                          | None => []
                          end) (messages_of r))
      (CustoEstimado (word_count t) (word_count texto)) true
  /\ spoken (snd (processar_prompt t (SdkResponds hook r) h)) = spoken h1
  /\ queries (snd (processar_prompt t (SdkResponds hook r) h)) = t :: queries h.
Proof.
  intros Hb. cbv zeta. unfold processar_prompt. unfold is_blank in Hb. rewrite Hb.
  set (h0 := hlogger "DEBUG" "Sending query to Claude Agent SDK..." []
               (hlogger "AGENT" "Processing prompt: '{}...'" [PyStr.slice_to t 100] h)).
  set (hq := mkHandler (_tts_callback h0) (spoken h0) (t :: queries h0) (hlog h0)).
  set (h1 := match hook with Some context => _on_stop context hq | None => hq end).
  pose proof (parse_text_is_final_response (messages_of r) [] h1) as Ht.
  destruct (parse_fold (messages_of r) [] "" h1) as (F1 & _ & F3 & F4).
  destruct (fold_left parse_message (messages_of r) ([], "", h1)) as [[f' t'] h'].
  cbn [fst snd] in Ht, F1, F3, F4. subst t'. rewrite F1. cbn [app].
  cbn [fst snd hlogger spoken queries].
  split; [reflexivity|]. rewrite F3, F4. subst h1 hq h0.
  destruct hook as [context|]; [|split; reflexivity].
  split.
  - unfold _on_stop. cbn [hlogger _tts_callback spoken queries hlog].
    destruct (_tts_callback h && _); reflexivity.
  - unfold _on_stop. cbn [hlogger _tts_callback spoken queries hlog].
    destruct (_tts_callback h && _); reflexivity.
Qed.

(** X18. When the SDK answers a prompt that is not blank, the call succeeds
    and the query was sent once with the prompt as given.  The tools
    reported are those of the messages that carry a tool use, in the order
    of the messages, each with its input cut to at most 100 characters. *)
Theorem tools_reported_in_order (t : string)
  (hook : option (option (list Message))) (r : Response) (h : Handler) :
  is_blank t = false ->
  let res := fst (processar_prompt t (SdkResponds hook r) h) in
  sucesso res = true
  /\ map fst (ferramentas_usadas res) = tool_names (messages_of r)
  /\ Forall (fun ni => String.length (snd ni) <= 100) (ferramentas_usadas res)
  /\ queries (snd (processar_prompt t (SdkResponds hook r) h)) = t :: queries h.
Proof.
  intros Hb res. subst res.
  destruct (processar_prompt_answer t hook r h Hb) as (E & _ & Q).
  rewrite E. cbn [sucesso ferramentas_usadas]. split; [reflexivity|].
  split; [|split; [|exact Q]]; clear E Q; generalize (messages_of r) as msgs.
  - unfold tool_names. induction msgs as [|m ms IH]; [reflexivity|].
    cbn [flat_map]. rewrite map_app, IH.
    destruct (tool_use m) as [[n i]|]; reflexivity.
  - induction msgs as [|m ms IH]; [constructor|].
    cbn [flat_map]. apply Forall_app. split; [|exact IH].
    destruct (tool_use m) as [[n i]|]; [|constructor].
    constructor; [|constructor]. cbn [snd]. rewrite slice_to_length.
    apply Nat.le_min_l.
Qed.

Lemma tools_reported_in_order_witness :
  let res := fst (processar_prompt "que dia e hoje"
                    (SdkResponds None answer_with_tool) idle_handler) in
  sucesso res = true
  /\ map fst (ferramentas_usadas res) = tool_names (messages_of answer_with_tool)
  /\ Forall (fun ni => String.length (snd ni) <= 100) (ferramentas_usadas res)
  /\ queries (snd (processar_prompt "que dia e hoje"
                     (SdkResponds None answer_with_tool) idle_handler))
     = "que dia e hoje" :: queries idle_handler.
Proof.
  apply (tools_reported_in_order "que dia e hoje" None answer_with_tool
           idle_handler).
  reflexivity.
Defined.

(** X19. The text returned for an answered prompt is the content of the last
    assistant message that has one, the same text the Stop hook reads; when
    that is empty, it is [str(response.result)] if that attribute is there
    and not empty, and [str(response)] otherwise. *)
Theorem returned_text_fallbacks (t : string)
  (hook : option (option (list Message))) (r : Response) (h : Handler) :
  is_blank t = false ->
  let final := final_response (Some (messages_of r)) in
  resultado (fst (processar_prompt t (SdkResponds hook r) h)) =
    if negb (PyStr.is_empty final) then final
    else match result r with
         | Some x => if PyStr.is_empty x then as_str r else x
         | None => as_str r
         end.
Proof.
  intros Hb final.
  destruct (processar_prompt_answer t hook r h Hb) as (E & _).
  rewrite E. cbn [resultado]. fold final.
  destruct (PyStr.is_empty final) eqn:Ef; cbn [negb].
  - destruct (result r) as [x|]; [reflexivity|]. rewrite Ef. reflexivity.
  - rewrite Ef. reflexivity.
Qed.

Lemma returned_text_fallbacks_witness :
  let final := final_response (Some (messages_of answer_with_tool)) in
  resultado (fst (processar_prompt "que dia e hoje"
                    (SdkResponds None answer_with_tool) idle_handler)) =
    if negb (PyStr.is_empty final) then final
    else match result answer_with_tool with
         | Some x => if PyStr.is_empty x then as_str answer_with_tool else x
         | None => as_str answer_with_tool
         end.
Proof.
  apply (returned_text_fallbacks "que dia e hoje" None answer_with_tool
           idle_handler).
  reflexivity.
Defined.

(** X20. When the Stop hook fires on the messages of the response, a
    callback is registered and the assistant's last text is not empty, the
    text scheduled for speech is the TTS summary of the text returned to
    the orchestrator, and it is scheduled once. *)
Theorem spoken_is_summary_of_returned (t : string) (r : Response) (h : Handler) :
  is_blank t = false ->
  _tts_callback h = true ->
  final_response (Some (messages_of r)) <> "" ->
  let run := processar_prompt t (SdkResponds (Some (Some (messages_of r))) r) h in
  spoken (snd run) = _gerar_resumo_tts (resultado (fst run)) :: spoken h.
Proof.
  intros Hb Hcb Hne run. subst run.
  destruct (processar_prompt_answer t (Some (Some (messages_of r))) r h Hb)
    as (E & S & _).
  rewrite E, S. cbn [resultado].
  set (final := final_response (Some (messages_of r))) in *.
  assert (Ef : PyStr.is_empty final = false).
  { destruct final; [contradiction | reflexivity]. }
  rewrite Ef. rewrite Ef.
  unfold _on_stop. cbn [hlogger _tts_callback spoken queries hlog].
  rewrite Hcb. cbn [andb]. fold final.
  destruct (_gerar_resumo_tts final) eqn:Er.
  - apply (proj2 (resumo_bounds final)) in Er. contradiction.
  - reflexivity.
Qed.

Lemma spoken_is_summary_of_returned_witness :
  let run := processar_prompt "que dia e hoje"
               (SdkResponds (Some (Some (messages_of answer_with_tool)))
                            answer_with_tool) idle_handler in
  spoken (snd run) = _gerar_resumo_tts (resultado (fst run)) :: spoken idle_handler.
Proof.
  apply (spoken_is_summary_of_returned "que dia e hoje" answer_with_tool
           idle_handler).
  - reflexivity.
  - reflexivity.
  - discriminate.
Defined.

End Agent.

(** ** Synthesis and transcription *)

Section Synthesis.
Import AgentHandler TTS.

(** X21. Every voice name has a voice id: the one of lucas when the name is
    lucas in any letter case, and the one of ana for every other name. *)
Theorem voice_id_falls_back_to_ana (voice : string) :
  _get_voice_id voice =
    if String.eqb (PyStr.lower voice) "lucas"
    then "d6b6e68a-407c-45b0-9330-b96511922666"
    else "79a125e8-cd45-4c13-8a67-a188a65c6d09".
Proof.
  unfold _get_voice_id, VOICES. cbn [MaquinaEstadosNero.dict_get].
  destruct (String.eqb_spec (PyStr.lower voice) "ana") as [E|_].
  - rewrite E. reflexivity.
  - destruct (String.eqb (PyStr.lower voice) "lucas"); reflexivity.
Qed.

Lemma gerar_audio_parts (texto voz estilo fmt : string) (env : GerarEnv) (t : Tts) :
  let run := gerar_audio texto voz estilo fmt env t in
  let sent := negb (is_blank texto) && negb (NeroAssistant.key_invalid (api_key t)) in
  fst run =
    (if sent then
       match generated env with
       | Some audio_data =>
           mkAudio true (filepath env) (String.length audio_data) texto
       | None => falhou texto
       end
     else falhou (if is_blank texto then "" else texto))
  /\ posts (snd run) =
       (if sent
        then mkPayload texto (_get_voice_id voz) fmt estilo :: posts t
        else posts t)
  /\ files (snd run) =
       (if sent then
          match generated env with
          | Some audio_data => (filepath env, audio_data) :: files t
          | None => files t
          end
        else files t)
  /\ played (snd run) = played t
  /\ api_key (snd run) = api_key t.
Proof.
  cbv zeta. unfold gerar_audio, generated.
  destruct (is_blank texto); cbn [negb andb]; [repeat split; reflexivity|].
  destruct (NeroAssistant.key_invalid (api_key t)); cbn [negb andb];
    [repeat split; reflexivity|].
  destruct (post env) as [| | |code body]; try (repeat split; reflexivity).
  destruct (code =? 200)%Z; cbn [negb andb]; [|repeat split; reflexivity].
  destruct (write_ok env); repeat split; reflexivity.
Qed.

(** X22. [gerar_audio] posts a request only for a text that is not blank and
    with a usable key, and then exactly one, for the voice asked.  It
    reports success exactly when that request is answered with status 200
    and the file can be written; the file then holds the body of the answer
    at the path returned, and no file is written otherwise.  The text comes
    back in the result, except that a blank text comes back empty. *)
Theorem gerar_audio_classified (texto voz estilo fmt : string) (env : GerarEnv)
  (t : Tts) :
  let run := gerar_audio texto voz estilo fmt env t in
  let sent := negb (is_blank texto) && negb (NeroAssistant.key_invalid (api_key t)) in
  fst run =
    (if sent then
       match generated env with
       | Some audio_data =>
           mkAudio true (filepath env) (String.length audio_data) texto
       | None => falhou texto
       end
     else falhou (if is_blank texto then "" else texto))
  /\ posts (snd run) =
       (if sent
        then mkPayload texto (_get_voice_id voz) fmt estilo :: posts t
        else posts t)
  /\ files (snd run) =
       (if sent then
          match generated env with
          | Some audio_data => (filepath env, audio_data) :: files t
          | None => files t
          end
        else files t)
  /\ played (snd run) = played t
  /\ api_key (snd run) = api_key t.
Proof. exact (gerar_audio_parts texto voz estilo fmt env t). Qed.

(** X23. [falar] returns what [gerar_audio] returns, whatever becomes of the
    playback: a failed or impossible playback does not turn a generated
    audio into a failure.  A player is run at most once, and exactly when
    the audio was generated, playing was asked for, the file is there and
    the platform is Windows, Linux or Darwin. *)
Theorem falar_reports_generation (texto voz estilo : string) (tocar : bool)
  (genv : GerarEnv) (penv : PlayEnv) (t : Tts) :
  fst (falar texto voz estilo tocar genv penv t)
  = fst (gerar_audio texto voz estilo "mp3" genv t)
  /\ played (snd (falar texto voz estilo tocar genv penv t)) =
       (if sucesso (fst (gerar_audio texto voz estilo "mp3" genv t))
           && tocar && file_exists penv
        then match player (system penv) with
             | Some command =>
                 (command,
                  caminho_arquivo (fst (gerar_audio texto voz estilo "mp3" genv t)))
                 :: played t
             | None => played t
             end
        else played t).
Proof.
  unfold falar.
  destruct (gerar_audio_parts texto voz estilo "mp3" genv t) as (_ & _ & _ & Hp & _).
  cbv zeta in Hp.
  destruct (gerar_audio texto voz estilo "mp3" genv t) as [r t1].
  cbn [fst snd] in *.
  destruct (sucesso r), tocar; cbn [andb]; try (split; [reflexivity|exact Hp]).
  unfold reproduzir_audio.
  destruct (file_exists penv); cbn [negb]; [|split; [reflexivity|exact Hp]].
  destruct (player (system penv)); [|split; [reflexivity|exact Hp]].
  destruct (player_ok penv); cbn; rewrite Hp; split; reflexivity.
Qed.

End Synthesis.

Section Transcription.
Import AgentHandler STTForte.

Lemma report_parts (callback : Callback) (stage : string) (t t' : Stt) :
  report callback stage t = Some t' ->
  api_key t' = api_key t /\ verbose t' = verbose t /\ posted t' = posted t.
Proof.
  unfold report. destruct callback as [|[s|]].
  - intros H. injection H as <-. repeat split; reflexivity.
  - destruct (String.eqb s stage); [discriminate|].
    intros H. injection H as <-. repeat split; reflexivity.
  - intros H. injection H as <-. repeat split; reflexivity.
Qed.

(** What [transcrever_audio_file] can return, and what it posts. *)
Lemma transcrever_parts (audio : string) (callback : Callback)
  (post : PostOutcome (option Json)) (t : Stt) :
  (fst (transcrever_audio_file audio callback post t) = JStr ""
   \/ exists body transcript words,
        NeroAssistant.key_invalid (api_key t) = false
        /\ post = PostResponds 200 (Some body)
        /\ extract (verbose t) body = Some (transcript, words)
        /\ truthy transcript = true
        /\ fst (transcrever_audio_file audio callback post t) = transcript)
  /\ (posted (snd (transcrever_audio_file audio callback post t)) = posted t
      \/ posted (snd (transcrever_audio_file audio callback post t))
         = audio :: posted t)
  /\ (NeroAssistant.key_invalid (api_key t) = true ->
      posted (snd (transcrever_audio_file audio callback post t)) = posted t).
Proof.
  unfold transcrever_audio_file, failed.
  destruct (NeroAssistant.key_invalid (api_key t)) eqn:Hk;
    [split; [left; reflexivity|split; [left; reflexivity|reflexivity]]|].
  set (t0 := slogger "TRANSCRIBING" _ [] t).
  destruct (report callback "sending" t0) as [t1|] eqn:R1;
    [|split; [left; reflexivity|split; [left; reflexivity|discriminate]]].
  destruct (report_parts _ _ _ _ R1) as (K1 & V1 & P1).
  cbn [slogger api_key verbose posted] in K1, V1, P1.
  set (t2 := mkStt (api_key t1) (verbose t1) (audio :: posted t1) (progress t1) (slog t1)).
  destruct post as [| | |code body];
    try (split; [left; reflexivity|split; [right; cbn; rewrite P1; reflexivity|discriminate]]).
  destruct (report callback "processing" t2) as [t3|] eqn:R2;
    [|split; [left; reflexivity|split; [right; cbn; rewrite P1; reflexivity|discriminate]]].
  destruct (report_parts _ _ _ _ R2) as (K3 & V3 & P3).
  cbn [t2 api_key verbose posted] in K3, V3, P3.
  destruct (Z.eqb_spec code 200) as [->|_]; cbn [negb];
    [|split; [left; reflexivity|split; [right; cbn; rewrite P3, P1; reflexivity|discriminate]]].
  destruct body as [body|];
    [|split; [left; reflexivity|split; [right; cbn; rewrite P3, P1; reflexivity|discriminate]]].
  destruct (report callback "complete" t3) as [t4|] eqn:R3;
    [|split; [left; reflexivity|split; [right; cbn; rewrite P3, P1; reflexivity|discriminate]]].
  destruct (report_parts _ _ _ _ R3) as (K4 & V4 & P4).
  destruct (extract (verbose t4) body) as [[transcript words]|] eqn:Ex;
    [|split; [left; reflexivity|split; [right; cbn; rewrite P4, P3, P1; reflexivity|discriminate]]].
  assert (Hposted : forall t5 : Stt, posted t5 = posted t4 -> posted t5 = audio :: posted t)
    by (intros t5 ->; rewrite P4, P3, P1; reflexivity).
  destruct (truthy transcript) eqn:Tr.
  - split; [|split; [right; apply Hposted; destruct words; reflexivity|discriminate]].
    right. exists body, transcript, words.
    rewrite V4, V3, V1 in Ex. repeat split; auto.
  - split; [left; reflexivity|].
    split; [right; apply Hposted; destruct words; reflexivity|discriminate].
Qed.

(** X24. [transcrever_audio_file] always returns, and returns the empty
    string unless the key is usable, the request was answered with status
    200 and a body that parses, the extraction went through and the
    transcript it found is truthy; that transcript is then what it returns.
    The audio is posted at most once, and not at all with an unusable
    key. *)
Theorem transcript_only_from_ok_answer (audio : string) (callback : Callback)
  (post : PostOutcome (option Json)) (t : Stt) :
  (fst (transcrever_audio_file audio callback post t) = JStr ""
   \/ exists body transcript words,
        NeroAssistant.key_invalid (api_key t) = false
        /\ post = PostResponds 200 (Some body)
        /\ extract (verbose t) body = Some (transcript, words)
        /\ truthy transcript = true
        /\ fst (transcrever_audio_file audio callback post t) = transcript)
  /\ (posted (snd (transcrever_audio_file audio callback post t)) = posted t
      \/ posted (snd (transcrever_audio_file audio callback post t))
         = audio :: posted t)
  /\ (NeroAssistant.key_invalid (api_key t) = true ->
      posted (snd (transcrever_audio_file audio callback post t)) = posted t).
Proof. exact (transcrever_parts audio callback post t). Qed.

Lemma extract_non_object (v : bool) (body : Json) :
  is_object body = false ->
  extract v body = None \/ extract v body = Some (JStr "", None).
Proof.
  destruct body as [| b | n | s | items | members]; cbn [is_object];
    try discriminate; intros _; unfold extract; cbn [py_in obind].
  - left; reflexivity.
  - left; reflexivity.
  - left; reflexivity.
  - destruct (PyStr.contains "results" s); cbn [negb];
      [left; reflexivity | right; reflexivity].
  - destruct (existsb _ items); cbn [negb];
      [left; reflexivity | right; reflexivity].
Qed.

(** X25. A body that is not a JSON object (an array, a string, a number,
    true, false, null) never yields a transcript: whatever the status and
    the callback, the answer is the empty string, not an exception. *)
Theorem non_object_body_gives_empty (audio : string) (callback : Callback)
  (status_code : Z) (body : Json) (t : Stt) :
  is_object body = false ->
  fst (transcrever_audio_file audio callback
         (PostResponds status_code (Some body)) t) = JStr "".
Proof.
  intros Hb.
  destruct (transcrever_parts audio callback (PostResponds status_code (Some body)) t)
    as ([H|(b & tr & w & _ & Hp & Hx & Ht & _)] & _); [exact H|].
  injection Hp as _ <-.
  destruct (extract_non_object (verbose t) body Hb) as [E|E];
    rewrite E in Hx; [discriminate|].
  injection Hx as <- _. discriminate Ht.
Qed.

Lemma non_object_body_gives_empty_witness :
  fst (transcrever_audio_file "RIFF" NoCallback
         (PostResponds 200 (Some (JArr [JStr "results"]))) idle_stt) = JStr "".
Proof.
  apply (non_object_body_gives_empty "RIFF" NoCallback 200
           (JArr [JStr "results"]) idle_stt).
  reflexivity.
Defined.

(** X26. For a body of the shape Deepgram sends, the transcript returned is
    that of the first alternative of the first channel; further channels
    and alternatives are not looked at.  With a usable key and no callback
    the audio is posted once, as given. *)
Theorem first_alternative_of_first_channel (audio s : string)
  (members rm cm am : list (string * Json)) (ws more_channels more_alternatives : list Json)
  (t : Stt) :
  NeroAssistant.key_invalid (api_key t) = false ->
  lookup "results" members = Some (JObj rm) ->
  lookup "channels" rm = Some (JArr (JObj cm :: more_channels)) ->
  lookup "alternatives" cm = Some (JArr (JObj am :: more_alternatives)) ->
  lookup "transcript" am = Some (JStr s) ->
  lookup "words" am = Some (JArr ws) ->
  s <> "" ->
  fst (transcrever_audio_file audio NoCallback
         (PostResponds 200 (Some (JObj members))) t) = JStr s
  /\ posted (snd (transcrever_audio_file audio NoCallback
                    (PostResponds 200 (Some (JObj members))) t))
     = audio :: posted t.
Proof.
  intros Hk Hr Hc Ha Ht Hw Hs.
  unfold transcrever_audio_file. rewrite Hk.
  cbn [report slogger api_key verbose posted progress slog Z.eqb Pos.eqb negb].
  unfold extract.
  cbn [py_in py_getitem py_first py_get obind]. rewrite Hr. cbn [negb obind py_in py_getitem].
  rewrite Hc. cbn [negb obind py_first py_in py_getitem]. rewrite Ha.
  cbn [negb obind py_first py_get]. rewrite Ht, Hw.
  assert (Hts : truthy (JStr s) = true) by (destruct s; [contradiction|reflexivity]).
  destruct (verbose t && truthy (JArr ws)); cbn [py_len obind]; rewrite Hts;
    split; reflexivity.
Qed.

Lemma first_alternative_of_first_channel_witness :
  fst (transcrever_audio_file "RIFF" NoCallback
         (PostResponds 200 (Some (deepgram_body "que horas sao"))) idle_stt)
  = JStr "que horas sao"
  /\ posted (snd (transcrever_audio_file "RIFF" NoCallback
                    (PostResponds 200 (Some (deepgram_body "que horas sao")))
                    idle_stt))
     = "RIFF" :: posted idle_stt.
Proof.
  apply (first_alternative_of_first_channel "RIFF" "que horas sao"
           [ ("metadata", JObj [("request_id", JStr "r1")]);
             ("results",
              JObj [ ("channels",
                      JArr [ JObj [ ("alternatives",
                                     JArr [ JObj [ ("transcript", JStr "que horas sao");
                                                   ("confidence", JNum true);
                                                   ("words", JArr [JObj [("word", JStr "que")]]) ] ]) ] ]) ]) ]
           [ ("channels",
              JArr [ JObj [ ("alternatives",
                             JArr [ JObj [ ("transcript", JStr "que horas sao");
                                           ("confidence", JNum true);
                                           ("words", JArr [JObj [("word", JStr "que")]]) ] ]) ] ]) ]
           [ ("alternatives",
              JArr [ JObj [ ("transcript", JStr "que horas sao");
                            ("confidence", JNum true);
                            ("words", JArr [JObj [("word", JStr "que")]]) ] ]) ]
           [ ("transcript", JStr "que horas sao");
             ("confidence", JNum true);
             ("words", JArr [JObj [("word", JStr "que")]]) ]
           [JObj [("word", JStr "que")]] [] [] idle_stt);
    try reflexivity.
  discriminate.
Defined.

Lemma collect_until_end (max_duration_ms : Z) (pre : list StreamItem)
  (data : string) (is_complete : bool) (elapsed_ms : Z) (rest : list StreamItem) :
  Forall (fun item => goes_on max_duration_ms item = true) pre ->
  goes_on max_duration_ms (Chunk data is_complete elapsed_ms) = false ->
  collect max_duration_ms (pre ++ Chunk data is_complete elapsed_ms :: rest)
  = Some ((map chunk_data pre ++ [data])%list, (elapsed_ms >=? max_duration_ms)%Z).
Proof.
  intros Hpre Hend. induction Hpre as [|item pre Hi _ IH].
  - cbn [app map collect]. cbn [goes_on] in Hend.
    destruct (elapsed_ms >=? max_duration_ms)%Z; [reflexivity|].
    destruct is_complete; [reflexivity|discriminate Hend].
  - destruct item as [d c e|]; [|discriminate Hi]. cbn [goes_on] in Hi.
    apply andb_true_iff in Hi. destruct Hi as [Hc He].
    apply negb_true_iff in Hc, He. subst c.
    cbn [app map collect chunk_data]. rewrite He, IH. reflexivity.
Qed.

Lemma transcrever_posts_once (audio : string) (post : PostOutcome (option Json))
  (t : Stt) :
  NeroAssistant.key_invalid (api_key t) = false ->
  posted (snd (transcrever_audio_file audio NoCallback post t)) = audio :: posted t
  /\ forall t', api_key t' = api_key t -> verbose t' = verbose t ->
       fst (transcrever_audio_file audio NoCallback post t')
       = fst (transcrever_audio_file audio NoCallback post t).
Proof.
  intros Hk. unfold transcrever_audio_file, failed. rewrite Hk.
  cbn [report slogger api_key verbose posted progress slog].
  split.
  - destruct post as [| | |code [body|]]; try reflexivity;
      destruct (code =? 200)%Z; cbn [negb]; try reflexivity.
    destruct (extract (verbose t) body) as [[tr [n|]]|]; try reflexivity;
      destruct (truthy tr); reflexivity.
  - intros t' Hk' Hv'. rewrite Hk', Hk, Hv'.
    destruct post as [| | |code [body|]]; try reflexivity;
      destruct (code =? 200)%Z; cbn [negb]; try reflexivity.
    destruct (extract (verbose t) body) as [[tr [n|]]|]; try reflexivity;
      destruct (truthy tr); reflexivity.
Qed.

(** X27. The streaming transcription reads the stream up to and including
    the first chunk that is marked complete or at which the maximum
    duration has passed, and no further: the audio posted is the
    concatenation of exactly those chunks, and what follows in the stream
    changes neither the audio posted nor the text returned.  An empty
    stream is answered with the empty string and nothing is posted. *)
Theorem stream_read_until_first_end (max_duration_ms : Z) (pre : list StreamItem)
  (data : string) (is_complete : bool) (elapsed_ms : Z)
  (rest rest' : list StreamItem) (post : PostOutcome (option Json)) (t : Stt) :
  NeroAssistant.key_invalid (api_key t) = false ->
  Forall (fun item => goes_on max_duration_ms item = true) pre ->
  goes_on max_duration_ms (Chunk data is_complete elapsed_ms) = false ->
  let run r := transcrever_em_tempo_real
                 (pre ++ Chunk data is_complete elapsed_ms :: r)
                 NoCallback max_duration_ms post t in
  posted (snd (run rest))
  = PyStr.join (map chunk_data pre ++ [data]) :: posted t
  /\ fst (run rest) = fst (run rest')
  /\ fst (transcrever_em_tempo_real [] NoCallback max_duration_ms post t) = JStr ""
  /\ posted (snd (transcrever_em_tempo_real [] NoCallback max_duration_ms post t))
     = posted t.
Proof.
  intros Hk Hpre Hend run. subst run. cbv beta.
  unfold transcrever_em_tempo_real. rewrite Hk.
  rewrite !(collect_until_end _ _ _ _ _ _ Hpre Hend).
  cbn [collect].
  set (t0 := slogger "DEBUG" _ [] _).
  set (t1 := if (elapsed_ms >=? max_duration_ms)%Z then _ else t0).
  assert (K1 : api_key t1 = api_key t) by (subst t1 t0; destruct (_ >=? _)%Z; reflexivity).
  assert (P1 : posted t1 = posted t) by (subst t1 t0; destruct (_ >=? _)%Z; reflexivity).
  assert (Hne : exists c cs, (map chunk_data pre ++ [data])%list = c :: cs).
  { destruct (map chunk_data pre) as [|c cs]; cbn; eauto. }
  destruct Hne as (c & cs & Hne). rewrite Hne. rewrite <- Hne.
  assert (Hk1 : NeroAssistant.key_invalid (api_key t1) = false) by (rewrite K1; exact Hk).
  destruct (transcrever_posts_once (PyStr.join (map chunk_data pre ++ [data])) post t1 Hk1)
    as [Hp _].
  rewrite Hp, P1. repeat split; reflexivity.
Qed.

Lemma stream_read_until_first_end_witness :
  let run r := transcrever_em_tempo_real
                 ([Chunk "RI" false 100] ++ Chunk "FF" true 200 :: r)
                 NoCallback 600000 PostTimeout idle_stt in
  posted (snd (run [Chunk "XX" false 300]))
  = PyStr.join (map chunk_data [Chunk "RI" false 100] ++ ["FF"]) :: posted idle_stt
  /\ fst (run [Chunk "XX" false 300]) = fst (run [])
  /\ fst (transcrever_em_tempo_real [] NoCallback 600000 PostTimeout idle_stt) = JStr ""
  /\ posted (snd (transcrever_em_tempo_real [] NoCallback 600000 PostTimeout idle_stt))
     = posted idle_stt.
Proof.
  apply (stream_read_until_first_end 600000 [Chunk "RI" false 100] "FF" true 200
           [Chunk "XX" false 300] [] PostTimeout idle_stt).
  - reflexivity.
  - repeat constructor.
  - reflexivity.
Defined.

End Transcription.

(** ** Where the summary cuts *)

Section ResumoCut.
Import AgentHandler.

(** [rfind_from] answers its default or an index of the string that holds
    a space. *)
Lemma rfind_from_space (s : string) (i last : Z) :
  PyStr.rfind_from i " " s last = last
  \/ ((i <= PyStr.rfind_from i " " s last < i + Z.of_nat (String.length s))%Z
      /\ String.get (Z.to_nat (PyStr.rfind_from i " " s last - i)) s
         = Some " "%char).
Proof.
  revert i last. induction s as [|c s IH]; intros i last.
  - left. reflexivity.
  - cbn [PyStr.rfind_from].
    set (last' := if prefix " " (String c s) then i else last).
    destruct (IH (i + 1)%Z last') as [E|[B G]].
    + rewrite E. subst last'. cbn [prefix].
      destruct (ascii_dec " " c) as [<-|_].
      * right.
        assert (P : prefix "" s = true) by (destruct s; reflexivity).
        rewrite P. cbn [String.length]. split; [lia|].
        rewrite Z.sub_diag. reflexivity.
      * left. reflexivity.
    + right. cbn [String.length]. split; [lia|].
      replace (Z.to_nat (PyStr.rfind_from (i + 1) " " s last' - i))
        with (S (Z.to_nat (PyStr.rfind_from (i + 1) " " s last' - (i + 1))))
        by lia.
      exact G.
Qed.

Lemma get_slice_to (s : string) (n k : nat) :
  k < n -> String.get k (PyStr.slice_to s n) = String.get k s.
Proof.
  unfold PyStr.slice_to. revert s k.
  induction n as [|n IH]; intros s k Hk; [lia|].
  destruct s as [|c s]; [reflexivity|]. cbn [substring].
  destruct k as [|k]; [reflexivity|]. cbn [String.get]. apply IH. lia.
Qed.

(** X28. The summary of a text longer than 200 characters keeps between
    161 and 200 characters of it before the ellipsis, and when it keeps
    fewer than 200 the character of the text that follows the kept part is
    a space: the cut never falls inside a word unless it is at 200. *)
Theorem resumo_cuts_at_a_space (texto : string) :
  200 < String.length texto ->
  exists k, 160 < k <= 200
    /\ _gerar_resumo_tts texto = PyStr.slice_to texto k ++ "..."
    /\ (k < 200 -> String.get k texto = Some " "%char).
Proof.
  intros Hlen. unfold _gerar_resumo_tts.
  destruct texto as [|c s]; [cbn in Hlen; lia|]. cbn [PyStr.is_empty].
  set (texto := String c s) in *.
  destruct (Nat.leb_spec (String.length texto) max_chars) as [Hle|_];
    [unfold max_chars in Hle; lia|].
  assert (L : String.length (PyStr.slice_to texto max_chars) = 200).
  { rewrite slice_to_length. unfold max_chars. lia. }
  unfold PyStr.rfind.
  destruct (rfind_from_space (PyStr.slice_to texto max_chars) 0 (-1))
    as [E|[B G]].
  - rewrite E. change (in_last_fifth (-1)) with false. cbv iota.
    unfold max_chars.
    destruct (Nat.ltb_spec (String.length (PyStr.slice_to texto 200))
                           (String.length texto)) as [_|Hge].
    + exists 200. split; [lia|]. split; [reflexivity | lia].
    + rewrite slice_to_length in Hge. lia.
  - set (ls := PyStr.rfind_from 0 " " (PyStr.slice_to texto max_chars) (-1)) in *.
    rewrite L in B. rewrite Z.sub_0_r in G.
    unfold in_last_fifth.
    destruct (Z.gtb_spec (10 * ls) (8 * Z.of_nat max_chars)) as [Hgt|Hng].
    + unfold max_chars in Hgt.
      rewrite slice_to_slice_to.
      assert (K : Nat.min (Z.to_nat ls) max_chars = Z.to_nat ls)
        by (unfold max_chars; lia).
      rewrite K.
      destruct (Nat.ltb_spec (String.length (PyStr.slice_to texto (Z.to_nat ls)))
                             (String.length texto)) as [_|Hge].
      * exists (Z.to_nat ls). split; [lia|]. split; [reflexivity|].
        intros Hk. rewrite <- G. symmetry. apply get_slice_to.
        unfold max_chars. exact Hk.
      * rewrite slice_to_length in Hge. lia.
    + destruct (Nat.ltb_spec (String.length (PyStr.slice_to texto max_chars))
                             (String.length texto)) as [_|Hge].
      * exists 200. split; [lia|]. split; [reflexivity | lia].
      * rewrite slice_to_length in Hge. unfold max_chars in Hge. lia.
Qed.

Lemma resumo_cuts_at_a_space_witness :
  200 < String.length texto_longo
  /\ exists k, 160 < k <= 200
       /\ _gerar_resumo_tts texto_longo = PyStr.slice_to texto_longo k ++ "..."
       /\ (k < 200 -> String.get k texto_longo = Some " "%char).
Proof.
  assert (H : 200 < String.length texto_longo) by (vm_compute; lia).
  split; [exact H | exact (resumo_cuts_at_a_space texto_longo H)].
Defined.

End ResumoCut.

(** ** The wake phase over the detector *)

Section WakePhase.
Import MaquinaEstadosNero NeroAssistant STTFraco.


(** X5. When the detector answers with its dict, the wake phase returns,
    with the machine in DESCANSO and after exactly one call of the detector.
    It returns false only when nothing was detected and [running] is off;
    when nothing was detected while the assistant is running it returns
    true, like a detection.  A detection is of one of the orchestrator's
    wake words. *)
Theorem estado_descanso_classified (wenv : WakeEnv) (d : Detector)
  (r : WakeDict) (env : TurnEnv) (w : World) :
  fst (detectar_wake_word wake_words wenv d) = Some r ->
  wake env = wake_answer r ->
  exists w',
    estado_descanso env w =
      (Return (detected r || (running w && negb (sigint_wake env))), w')
    /\ estado w' = "DESCANSO"
    /\ wake_calls w' = S (wake_calls w)
    /\ running w' = running w && negb (sigint_wake env)
    /\ (detected r = true -> In (palavra r) wake_words).
Proof.
  intros Hr Hwake.
  pose proof (detectar_names_wake_word wake_words wenv d r Hr) as Hin.
  destruct env as [wk sw mic cap tr ag sd resp sig].
  destruct w as [e rn f l c].
  cbn [wake] in Hwake. subst wk. unfold wake_answer.
  unfold estado_descanso, bind.
  rewrite (transitar_known "DESCANSO" _ _ eq_refl).
  cbn [estado_atual wake sigint_wake running].
  destruct (String.eqb_spec "DESCANSO" e) as [<-|_];
    destruct (detected r), sw, rn;
    eexists; (split; [reflexivity|]); repeat split; try reflexivity; exact Hin.
Qed.

Lemma estado_descanso_classified_witness :
  exists w',
    estado_descanso env_answered fresh =
      (Return (detected (mkWakeDict true "NERO OUVIR" (Some "RIFF"))
               || (running fresh && negb (sigint_wake env_answered))), w')
    /\ estado w' = "DESCANSO"
    /\ wake_calls w' = S (wake_calls fresh)
    /\ running w' = running fresh && negb (sigint_wake env_answered)
    /\ (detected (mkWakeDict true "NERO OUVIR" (Some "RIFF")) = true ->
        In (palavra (mkWakeDict true "NERO OUVIR" (Some "RIFF"))) wake_words).
Proof.
  apply (estado_descanso_classified wenv_second_attempt idle_detector
           (mkWakeDict true "NERO OUVIR" (Some "RIFF")) env_answered fresh).
  - reflexivity.
  - reflexivity.
Defined.



End WakePhase.
